(** * The quiz-session controller of [frontend/src/App.js]

    A shallow embedding of the React component [App]: its thirteen state
    variables, its handlers, the countdown effect and the requests it
    sends, followed by the properties of the session controller.

    How the component is read:
    - a [State] is one committed render: the values the handlers of that
      render close over;
    - a handler that reaches [await fetch(...)] stops there; what follows
      the [await] runs as a separate event when the request settles, with
      the values of the render in which the handler was started (its
      closure) and with functional updaters [prev => ...] applied to the
      state of that later moment;
    - [useEffect(..., [screen, timeLeft])] is run again exactly when
      [screen] or [timeLeft] differ from the previous render;
    - a render that throws (a [map] or a field read on [undefined])
      unmounts the component, there being no error boundary: its
      buttons and its interval are gone for good, while handlers already
      suspended at an [await] still run to their end;
    - the Numbers of the code ([timeLeft], [time_minutes]) are integers,
      and the arithmetic on them is that of [Z] within [safe_integer];
    - a JavaScript [Set] of option numbers is a [gset nat] (membership
      only), the object [answersHistory] a [gmap nat (gset nat)]. *)

From stdpp Require Import gmap strings list fin_maps pretty.
From Stdlib Require Import ZArith Ascii.

Open Scope string_scope.
Open Scope list_scope.

#[local] Set Warnings "-clear-no-such-hyp".

(** ** Data *)

(** The literal values of [screen]. *)
Inductive Screen :=
| scr_specialization | scr_userInfo | scr_difficulty
| scr_test | scr_result | scr_stats.

Global Instance Screen_eq_dec : EqDecision Screen.
Proof. solve_decision. Defined.

Record UserData := {
  telegram_id : Z;
  full_name : string;
  position : string;
  department : string;
  specialization : string;
  difficulty : string
}.

(** [{id, name}] of [GET /api/specializations]. *)
Record SpecItem := { spec_id : string; spec_name : string }.

(** [{id, name, questions, time_minutes}] of [GET /api/difficulties]. *)
Record DiffItem := {
  diff_id : string; diff_name : string;
  diff_questions : Z; diff_time_minutes : Z
}.

(** [{id, question, options}] of [POST /api/test/start]. *)
Record Question := {
  q_id : Z; q_question : string; q_options : list string
}.

(** [data.result] of [POST /api/test/finish]. *)
Record TestResult := {
  res_percentage : Z; res_grade : string;
  res_correct : Z; res_total : Z; res_time_spent : Z
}.

(** What [setStats(data)] stores: the body of
    [GET /api/stats/{telegram_id}] (as far as it is shown), or some other
    JSON object, from which [renderStats] cannot read [stats.grades]. *)
Inductive StatsData :=
| StatsBody (total_tests avg_percentage best_percentage : Z)
| OtherBody.

(** [list[i]] on a list that may be [undefined] (a missing field of a
    response body): used for the buttons made by [map], which exist only
    when the list does. *)
Global Instance lookup_maybe_list {A} : Lookup nat A (option (list A)) :=
  λ i l, l ≫= lookup i.

(** The state variables of [App], in the order of their [useState]. *)
Record State := {
  screen : Screen;
  userData : UserData;
  specializations : option (list SpecItem);
  difficulties : option (list DiffItem);
  questions : list Question;
  currentQuestion : nat;
  selectedAnswers : gset nat;
  answersHistory : gmap nat (gset nat);
  sessionId : string;
  timeLeft : Z;
  testResult : option TestResult;
  stats : option StatsData;
  loading : bool
}.

(** The initial values given to [useState]. *)
Definition initialState : State := {|
  screen := scr_specialization;
  userData := {| telegram_id := 0; full_name := ""; position := "";
                 department := ""; specialization := ""; difficulty := "" |};
  specializations := Some [];
  difficulties := Some [];
  questions := [];
  currentQuestion := 0;
  selectedAnswers := ∅;
  answersHistory := ∅;
  sessionId := "";
  timeLeft := 0;
  testResult := None;
  stats := None;
  loading := false
|}.

(** ** State setters

    [setX v] is [setX(v)]; the functional form [setX(prev => f prev)] is
    written [setX (f (X s)) s] through the [upd...] abbreviations below. *)

Definition setScreen (v : Screen) (s : State) : State :=
  {| screen := v; userData := userData s; specializations := specializations s;
     difficulties := difficulties s; questions := questions s;
     currentQuestion := currentQuestion s; selectedAnswers := selectedAnswers s;
     answersHistory := answersHistory s; sessionId := sessionId s;
     timeLeft := timeLeft s; testResult := testResult s; stats := stats s;
     loading := loading s |}.

Definition setUserData (v : UserData) (s : State) : State :=
  {| screen := screen s; userData := v; specializations := specializations s;
     difficulties := difficulties s; questions := questions s;
     currentQuestion := currentQuestion s; selectedAnswers := selectedAnswers s;
     answersHistory := answersHistory s; sessionId := sessionId s;
     timeLeft := timeLeft s; testResult := testResult s; stats := stats s;
     loading := loading s |}.

Definition setSpecializations (v : option (list SpecItem)) (s : State) : State :=
  {| screen := screen s; userData := userData s; specializations := v;
     difficulties := difficulties s; questions := questions s;
     currentQuestion := currentQuestion s; selectedAnswers := selectedAnswers s;
     answersHistory := answersHistory s; sessionId := sessionId s;
     timeLeft := timeLeft s; testResult := testResult s; stats := stats s;
     loading := loading s |}.

Definition setDifficulties (v : option (list DiffItem)) (s : State) : State :=
  {| screen := screen s; userData := userData s; specializations := specializations s;
     difficulties := v; questions := questions s;
     currentQuestion := currentQuestion s; selectedAnswers := selectedAnswers s;
     answersHistory := answersHistory s; sessionId := sessionId s;
     timeLeft := timeLeft s; testResult := testResult s; stats := stats s;
     loading := loading s |}.

Definition setQuestions (v : list Question) (s : State) : State :=
  {| screen := screen s; userData := userData s; specializations := specializations s;
     difficulties := difficulties s; questions := v;
     currentQuestion := currentQuestion s; selectedAnswers := selectedAnswers s;
     answersHistory := answersHistory s; sessionId := sessionId s;
     timeLeft := timeLeft s; testResult := testResult s; stats := stats s;
     loading := loading s |}.

Definition setCurrentQuestion (v : nat) (s : State) : State :=
  {| screen := screen s; userData := userData s; specializations := specializations s;
     difficulties := difficulties s; questions := questions s;
     currentQuestion := v; selectedAnswers := selectedAnswers s;
     answersHistory := answersHistory s; sessionId := sessionId s;
     timeLeft := timeLeft s; testResult := testResult s; stats := stats s;
     loading := loading s |}.

Definition setSelectedAnswers (v : gset nat) (s : State) : State :=
  {| screen := screen s; userData := userData s; specializations := specializations s;
     difficulties := difficulties s; questions := questions s;
     currentQuestion := currentQuestion s; selectedAnswers := v;
     answersHistory := answersHistory s; sessionId := sessionId s;
     timeLeft := timeLeft s; testResult := testResult s; stats := stats s;
     loading := loading s |}.

Definition setAnswersHistory (v : gmap nat (gset nat)) (s : State) : State :=
  {| screen := screen s; userData := userData s; specializations := specializations s;
     difficulties := difficulties s; questions := questions s;
     currentQuestion := currentQuestion s; selectedAnswers := selectedAnswers s;
     answersHistory := v; sessionId := sessionId s;
     timeLeft := timeLeft s; testResult := testResult s; stats := stats s;
     loading := loading s |}.

Definition setSessionId (v : string) (s : State) : State :=
  {| screen := screen s; userData := userData s; specializations := specializations s;
     difficulties := difficulties s; questions := questions s;
     currentQuestion := currentQuestion s; selectedAnswers := selectedAnswers s;
     answersHistory := answersHistory s; sessionId := v;
     timeLeft := timeLeft s; testResult := testResult s; stats := stats s;
     loading := loading s |}.

Definition setTimeLeft (v : Z) (s : State) : State :=
  {| screen := screen s; userData := userData s; specializations := specializations s;
     difficulties := difficulties s; questions := questions s;
     currentQuestion := currentQuestion s; selectedAnswers := selectedAnswers s;
     answersHistory := answersHistory s; sessionId := sessionId s;
     timeLeft := v; testResult := testResult s; stats := stats s;
     loading := loading s |}.

Definition setTestResult (v : option TestResult) (s : State) : State :=
  {| screen := screen s; userData := userData s; specializations := specializations s;
     difficulties := difficulties s; questions := questions s;
     currentQuestion := currentQuestion s; selectedAnswers := selectedAnswers s;
     answersHistory := answersHistory s; sessionId := sessionId s;
     timeLeft := timeLeft s; testResult := v; stats := stats s;
     loading := loading s |}.

Definition setStats (v : option StatsData) (s : State) : State :=
  {| screen := screen s; userData := userData s; specializations := specializations s;
     difficulties := difficulties s; questions := questions s;
     currentQuestion := currentQuestion s; selectedAnswers := selectedAnswers s;
     answersHistory := answersHistory s; sessionId := sessionId s;
     timeLeft := timeLeft s; testResult := testResult s; stats := v;
     loading := loading s |}.

Definition setLoading (v : bool) (s : State) : State :=
  {| screen := screen s; userData := userData s; specializations := specializations s;
     difficulties := difficulties s; questions := questions s;
     currentQuestion := currentQuestion s; selectedAnswers := selectedAnswers s;
     answersHistory := answersHistory s; sessionId := sessionId s;
     timeLeft := timeLeft s; testResult := testResult s; stats := stats s;
     loading := v |}.

Definition updUserData (f : UserData → UserData) (s : State) : State :=
  setUserData (f (userData s)) s.
Definition updCurrentQuestion (f : nat → nat) (s : State) : State :=
  setCurrentQuestion (f (currentQuestion s)) s.
Definition updSelectedAnswers (f : gset nat → gset nat) (s : State) : State :=
  setSelectedAnswers (f (selectedAnswers s)) s.
Definition updAnswersHistory
    (f : gmap nat (gset nat) → gmap nat (gset nat)) (s : State) : State :=
  setAnswersHistory (f (answersHistory s)) s.

(** [{...prev, field: v}] on [userData]. *)
Definition with_telegram_id (v : Z) (u : UserData) : UserData :=
  {| telegram_id := v; full_name := full_name u; position := position u;
     department := department u; specialization := specialization u;
     difficulty := difficulty u |}.
Definition with_full_name (v : string) (u : UserData) : UserData :=
  {| telegram_id := telegram_id u; full_name := v; position := position u;
     department := department u; specialization := specialization u;
     difficulty := difficulty u |}.
Definition with_position (v : string) (u : UserData) : UserData :=
  {| telegram_id := telegram_id u; full_name := full_name u; position := v;
     department := department u; specialization := specialization u;
     difficulty := difficulty u |}.
Definition with_department (v : string) (u : UserData) : UserData :=
  {| telegram_id := telegram_id u; full_name := full_name u; position := position u;
     department := v; specialization := specialization u;
     difficulty := difficulty u |}.
Definition with_specialization (v : string) (u : UserData) : UserData :=
  {| telegram_id := telegram_id u; full_name := full_name u; position := position u;
     department := department u; specialization := v;
     difficulty := difficulty u |}.
Definition with_difficulty (v : string) (u : UserData) : UserData :=
  {| telegram_id := telegram_id u; full_name := full_name u; position := position u;
     department := department u; specialization := specialization u;
     difficulty := v |}.

(** ** The answer tracker *)

(** The updater of [toggleAnswer]: copy the set, delete [index] when the
    copy has it, add it otherwise. *)
Definition toggle (index : nat) (prev : gset nat) : gset nat :=
  if decide (index ∈ prev) then prev ∖ {[index]} else prev ∪ {[index]}.

Definition toggleAnswer (index : nat) (s : State) : State :=
  updSelectedAnswers (toggle index) s.

(** [history[index] || new Set()]: a [Set] object is truthy even when it
    is empty, so the right operand is taken only for a missing entry. *)
Definition restore (history : gmap nat (gset nat)) (index : nat) : gset nat :=
  default ∅ (history !! index).

(** [goToPreviousQuestion] of the render [r], applied to the state [s]. *)
Definition goToPreviousQuestion (r : State) (s : State) : State :=
  if decide (0 < currentQuestion r) then
    setSelectedAnswers (restore (answersHistory r) (currentQuestion r - 1))
      (updCurrentQuestion (λ prev, prev - 1) s)
  else s.

(** ** Requests, responses and what the user sees *)

(** The calls of [fetch]. [Array.from(selectedAnswers)] is kept as the
    set it lists. *)
Inductive Request :=
| GetSpecializations
| GetDifficulties
| PostStart (body : UserData)
| PostAnswer (telegram : Z) (session : string) (question : Z)
             (selected_answers : gset nat)
| PostFinish (telegram : Z) (session : string)
| GetStats (telegram : Z).

(** What leaves the component: a request, [tg.showAlert(msg)],
    [console.error(msg, ...)]. *)
Inductive Effect :=
| Fetch (req : Request)
| ShowAlert (msg : string)
| ConsoleError (msg : string).

(** The JSON bodies the service answers with, one shape per endpoint;
    [DAck] is the body of [POST /api/test/answer], which is never read.
    Every handler runs on every one of them. [time_minutes] is a whole
    number; a body with a fractional or missing [time_minutes] next to
    [questions] is not among these shapes. *)
Inductive Data :=
| DSpecializations (l : list SpecItem)
| DDifficulties (l : list DiffItem)
| DStart (session_id : string) (qs : list Question) (time_minutes : Z)
| DAck
| DFinish (res : TestResult)
| DStats (d : StatsData).

(** The fields the code reads from a body: [data.specializations],
    [data.difficulties], [data.result], and [data] itself for the
    statistics. A body of another shape does not have the field. *)
Definition data_specializations (d : Data) : option (list SpecItem) :=
  match d with DSpecializations l => Some l | _ => None end.

Definition data_difficulties (d : Data) : option (list DiffItem) :=
  match d with DDifficulties l => Some l | _ => None end.

Definition data_result (d : Data) : option TestResult :=
  match d with DFinish res => Some res | _ => None end.

Definition data_stats (d : Data) : StatsData :=
  match d with DStats s => s | _ => OtherBody end.

(** How an awaited [fetch] settles: the promise rejects (the transport
    failed), or it resolves with a JSON body. A handler that reads the
    body takes one that is not JSON to its [catch] as well, which
    [NetworkError] stands for too. *)
Inductive Settled :=
| NetworkError
| Body (d : Data).

(** A handler suspended at its [await fetch(...)]. Only the part of
    [submitAnswer] after the [await] reads values of its render, which
    [AwaitAnswer] carries. *)
Inductive Pending :=
| AwaitSpecializations
| AwaitDifficulties
| AwaitStart
| AwaitAnswer (r : State)
| AwaitFinish
| AwaitStats.

(** The component between two events: the committed state, the suspended
    handlers in the order their requests were sent, the render whose
    [handleFinishTest] the running interval would call ([None]: no
    interval), and everything emitted so far. *)
Record Machine := {
  ui : State;
  inflight : list Pending;
  timer : option State;
  out : list Effect
}.

Definition setState (f : State → State) (m : Machine) : Machine :=
  {| ui := f (ui m); inflight := inflight m; timer := timer m; out := out m |}.

Definition emit (e : Effect) (m : Machine) : Machine :=
  {| ui := ui m; inflight := inflight m; timer := timer m; out := out m ++ [e] |}.

Definition suspend (p : Pending) (m : Machine) : Machine :=
  {| ui := ui m; inflight := inflight m ++ [p]; timer := timer m; out := out m |}.

Definition settle (k : nat) (m : Machine) : Machine :=
  {| ui := ui m; inflight := delete k (inflight m); timer := timer m; out := out m |}.

Definition setTimer (t : option State) (m : Machine) : Machine :=
  {| ui := ui m; inflight := inflight m; timer := t; out := out m |}.

(** [await fetch(req)]: the request goes out and the handler waits. *)
Definition fetch (req : Request) (p : Pending) (m : Machine) : Machine :=
  suspend p (emit (Fetch req) m).

Definition console_error (msg : string) (m : Machine) : Machine :=
  emit (ConsoleError msg) m.

(** [window.Telegram?.WebApp], with [initDataUnsafe?.user?.id]. *)
Record TgWebApp := { initDataUnsafe_user : option Z }.

(** [!s] on a string. *)
Definition falsy (s : string) : bool :=
  match s with EmptyString => true | String _ _ => false end.

Section App.

(** The module constant [tg]: [None] outside Telegram. *)
Variable tg : option TgWebApp.

(** [tg?.showAlert(msg)] *)
Definition showAlert (msg : string) (m : Machine) : Machine :=
  match tg with
  | Some _ => emit (ShowAlert msg) m
  | None => m
  end.

(** *** API calls: the part up to the [await] *)

Definition loadSpecializations (m : Machine) : Machine :=
  fetch GetSpecializations AwaitSpecializations m.

Definition loadDifficulties (m : Machine) : Machine :=
  fetch GetDifficulties AwaitDifficulties m.

Definition startTest (r : State) (m : Machine) : Machine :=
  fetch (PostStart (userData r)) AwaitStart (setState (setLoading true) m).

(** [questions[currentQuestion].id] is evaluated while the request body
    is built: on a missing question it throws inside the [try] before
    anything is sent. *)
Definition submitAnswer (r : State) (m : Machine) : Machine :=
  match questions r !! currentQuestion r with
  | Some q =>
      fetch (PostAnswer (telegram_id (userData r)) (sessionId r) (q_id q)
                        (selectedAnswers r))
            (AwaitAnswer r) m
  | None => console_error "Failed to submit answer:" m
  end.

Definition handleFinishTest (r : State) (m : Machine) : Machine :=
  fetch (PostFinish (telegram_id (userData r)) (sessionId r)) AwaitFinish
        (setState (setLoading true) m).

Definition loadStats (r : State) (m : Machine) : Machine :=
  fetch (GetStats (telegram_id (userData r))) AwaitStats m.

(** *** API calls: the part after the [await] *)

(** The status of a response is never looked at: whatever JSON body
    arrives, the part after the [await] runs with the fields it reads
    from it, and a field the body does not have is [undefined]. *)

Definition loadSpecializations_settled (o : Settled) (m : Machine) : Machine :=
  match o with
  | NetworkError =>
      showAlert "Ошибка загрузки специализаций"
        (console_error "Failed to load specializations:" m)
  | Body d => setState (setSpecializations (data_specializations d)) m
  end.

Definition loadDifficulties_settled (o : Settled) (m : Machine) : Machine :=
  match o with
  | NetworkError =>
      showAlert "Ошибка загрузки уровней сложности"
        (console_error "Failed to load difficulties:" m)
  | Body d => setState (setDifficulties (data_difficulties d)) m
  end.

(** [data.time_minutes * 60] and the [prev - 1] of the countdown are
    operations on Numbers: they are those of [Z] written here as long as
    the values stay within [safe_integer], which the statements about
    the countdown and the clock assume. *)
Definition startTest_settled (o : Settled) (m : Machine) : Machine :=
  setState (setLoading false)
    match o with
    | Body (DStart session_id qs time_minutes) =>
        setState (setScreen scr_test)
          (setState (setAnswersHistory ∅)
            (setState (setSelectedAnswers ∅)
              (setState (setCurrentQuestion 0)
                (setState (setTimeLeft (time_minutes * 60))
                  (setState (setQuestions qs)
                    (setState (setSessionId session_id) m))))))
    | Body _ =>
        (* [data.questions] is [undefined]: the test screen is set and
           its first render throws on [questions[currentQuestion]]. Of
           this batch the model keeps what that render reads before it
           throws; nothing else of it is ever rendered or read. *)
        setState (setScreen scr_test)
          (setState (setCurrentQuestion 0) (setState (setQuestions []) m))
    | NetworkError =>
        showAlert "Ошибка начала теста"
          (console_error "Failed to start test:" m)
    end.

(** The rest of [submitAnswer] of the render [r]: on a rejected request
    the [catch] only logs; otherwise the history is written, and then the
    cursor moves or [handleFinishTest] of the same render is called. *)
Definition submitAnswer_settled (r : State) (o : Settled) (m : Machine) : Machine :=
  match o with
  | NetworkError => console_error "Failed to submit answer:" m
  | Body _ =>
      let m1 :=
        setState (updAnswersHistory
                    (λ prev, <[currentQuestion r := selectedAnswers r]> prev)) m in
      if decide (Z.of_nat (currentQuestion r)
                 < Z.of_nat (length (questions r)) - 1)%Z then
        setState (setSelectedAnswers
                    (restore (answersHistory r) (currentQuestion r + 1)))
          (setState (updCurrentQuestion (λ prev, prev + 1)) m1)
      else handleFinishTest r m1
  end.

Definition handleFinishTest_settled (o : Settled) (m : Machine) : Machine :=
  setState (setLoading false)
    match o with
    | Body d =>
        setState (setScreen scr_result)
          (setState (setTestResult (data_result d)) m)
    | NetworkError =>
        showAlert "Ошибка завершения теста"
          (console_error "Failed to finish test:" m)
    end.

Definition loadStats_settled (o : Settled) (m : Machine) : Machine :=
  match o with
  | Body d =>
      setState (setScreen scr_stats) (setState (setStats (Some (data_stats d))) m)
  | NetworkError =>
      showAlert "Ошибка загрузки статистики"
        (console_error "Failed to load stats:" m)
  end.

(** *** Handlers *)

Definition selectSpecialization (spec : SpecItem) (m : Machine) : Machine :=
  setState (setScreen scr_userInfo)
    (setState (updUserData (with_specialization (spec_id spec))) m).

Definition submitUserInfo (r : State) (m : Machine) : Machine :=
  if falsy (full_name (userData r)) || falsy (position (userData r))
     || falsy (department (userData r))
  then showAlert "Пожалуйста, заполните все поля" m
  else setState (setScreen scr_difficulty) (loadDifficulties m).

Definition selectDifficulty (r : State) (diff : DiffItem) (m : Machine) : Machine :=
  startTest r (setState (updUserData (with_difficulty (diff_id diff))) m).

End App.

(** ** Events *)

(** What can happen to the mounted component: a click or an input on the
    screen that is shown, a tick of the interval, a request settling. The
    buttons made by [map] are named by their position in the list. *)
Inductive Event :=
| ClickSpecialization (i : nat)
| ClickMyStats
| InputFullName (v : string)
| InputPosition (v : string)
| InputDepartment (v : string)
| ClickUserInfoBack
| ClickUserInfoNext
| ClickDifficulty (i : nat)
| ClickDifficultyBack
| ClickOption (index : nat)
| ClickPrevious
| ClickSubmit
| ClickResultExit
| ClickStatsBack
| Tick
| Settle (k : nat) (o : Settled).

(** Whether the screen of a render can be drawn. [renderSpecialization]
    and [renderDifficulty] call [map] on their list and [renderTest]
    reads [question.question] of [questions[currentQuestion]]: on
    [undefined] they throw, and so does [renderStats] on an object
    without [grades]. Nothing catches the error, so the component is
    unmounted for good: no button, no interval, and its setters do
    nothing any more. *)
Definition renders (s : State) : bool :=
  match screen s with
  | scr_specialization =>
      match specializations s with Some _ => true | None => false end
  | scr_userInfo => true
  | scr_difficulty =>
      match difficulties s with Some _ => true | None => false end
  | scr_test =>
      match questions s !! currentQuestion s with Some _ => true | None => false end
  | scr_result => true
  | scr_stats =>
      match stats s with Some OtherBody => false | _ => true end
  end.

(** The state of an unmounted component is gone. The model keeps every
    variable that decides rendering as it was in [r], the render that
    threw, whatever a suspended handler sets later; the other variables
    are not observable any more. *)
Definition freeze (r : State) (s : State) : State :=
  {| screen := screen r; userData := userData s;
     specializations := specializations r; difficulties := difficulties r;
     questions := questions r; currentQuestion := currentQuestion r;
     selectedAnswers := selectedAnswers s; answersHistory := answersHistory s;
     sessionId := sessionId s; timeLeft := timeLeft s;
     testResult := testResult s; stats := stats r; loading := loading s |}.

Section Run.

Variable tg : option TgWebApp.

Definition resume (p : Pending) (o : Settled) (m : Machine) : Machine :=
  match p with
  | AwaitSpecializations => loadSpecializations_settled tg o m
  | AwaitDifficulties => loadDifficulties_settled tg o m
  | AwaitStart => startTest_settled tg o m
  | AwaitAnswer r => submitAnswer_settled r o m
  | AwaitFinish => handleFinishTest_settled tg o m
  | AwaitStats => loadStats_settled tg o m
  end.

(** The callback of [setInterval]: [setTimeLeft(prev => ...)], where the
    updater calls [handleFinishTest] of the render that armed the
    interval. *)
Definition tick (m : Machine) : Machine :=
  match timer m with
  | Some c =>
      if decide (timeLeft (ui m) ≤ 1)%Z then
        setState (setTimeLeft 0) (handleFinishTest c m)
      else setState (setTimeLeft (timeLeft (ui m) - 1)) m
  | None => m
  end.

(** The event run by the handlers of the current render [ui m]. An event
    whose button is not rendered, or is disabled, changes nothing. When
    a request settles the rest of its handler runs also after the
    component was unmounted; its requests still go out, its setters can
    no longer bring the component back. *)
Definition handle (e : Event) (m : Machine) : Machine :=
  let r := ui m in
  match e, screen r with
  | ClickSpecialization i, scr_specialization =>
      match specializations r !! i with
      | Some spec => selectSpecialization spec m
      | None => m
      end
  | ClickMyStats, scr_specialization =>
      match specializations r with
      | Some _ => loadStats r m
      | None => m
      end
  | InputFullName v, scr_userInfo => setState (updUserData (with_full_name v)) m
  | InputPosition v, scr_userInfo => setState (updUserData (with_position v)) m
  | InputDepartment v, scr_userInfo => setState (updUserData (with_department v)) m
  | ClickUserInfoBack, scr_userInfo => setState (setScreen scr_specialization) m
  | ClickUserInfoNext, scr_userInfo => submitUserInfo tg r m
  | ClickDifficulty i, scr_difficulty =>
      match difficulties r !! i with
      | Some diff => if loading r then m else selectDifficulty r diff m
      | None => m
      end
  | ClickDifficultyBack, scr_difficulty =>
      match difficulties r with
      | Some _ => setState (setScreen scr_userInfo) m
      | None => m
      end
  | ClickOption index, scr_test =>
      match questions r !! currentQuestion r with
      | Some q =>
          match q_options q !! index with
          | Some _ => setState (toggleAnswer (index + 1)) m
          | None => m
          end
      | None => m
      end
  | ClickPrevious, scr_test =>
      match questions r !! currentQuestion r with
      | Some _ =>
          if decide (currentQuestion r = 0) then m
          else setState (goToPreviousQuestion r) m
      | None => m
      end
  | ClickSubmit, scr_test =>
      match questions r !! currentQuestion r with
      | Some _ =>
          if decide (size (selectedAnswers r) = 0) then m
          else submitAnswer r m
      | None => m
      end
  | ClickResultExit, scr_result =>
      match testResult r with
      | Some _ => setState (setScreen scr_specialization) m
      | None => m
      end
  | ClickStatsBack, scr_stats =>
      match stats r with
      | Some (StatsBody _ _ _) => setState (setScreen scr_specialization) m
      | _ => m
      end
  | Tick, _ => tick m
  | Settle k o, _ =>
      match inflight m !! k with
      | Some p =>
          if renders r then resume p o (settle k m)
          else setState (freeze r) (resume p o (settle k m))
      | None => m
      end
  | _, _ => m
  end.

(** The countdown effect after a render: with [screen] and [timeLeft]
    as in the previous render it is left alone; otherwise its cleanup
    clears the interval and a new one is set when [screen === 'test' &&
    timeLeft > 0], calling the [handleFinishTest] of this render. A
    render that throws runs no effect, and unmounting runs the cleanup:
    from then on there is no interval. *)
Definition timerEffect (before : State) (m : Machine) : Machine :=
  if decide (screen (ui m) = screen before ∧ timeLeft (ui m) = timeLeft before
             ∧ renders (ui m) = renders before)
  then m
  else if decide (screen (ui m) = scr_test ∧ (0 < timeLeft (ui m))%Z
                  ∧ renders (ui m) = true)
       then setTimer (Some (ui m)) m
       else setTimer None m.

Definition step (e : Event) (m : Machine) : Machine :=
  timerEffect (ui m) (handle e m).

Definition run (es : list Event) (m : Machine) : Machine :=
  foldl (λ m e, step e m) m es.

(** The first effect: read the Telegram user, load the specializations. *)
Definition mount : Machine :=
  let s :=
    match tg with
    | Some app =>
        match initDataUnsafe_user app with
        | Some uid => updUserData (with_telegram_id uid) initialState
        | None => initialState
        end
    | None => initialState
    end in
  loadSpecializations
    {| ui := s; inflight := []; timer := None; out := [] |}.

Definition reachable (m : Machine) : Prop := ∃ es, m = run es mount.

End Run.

(** ** A session used in the examples

    One specialization, one difficulty, a completed profile, and the
    service's answer to [POST /api/test/start]. *)

Definition host : option TgWebApp := Some {| initDataUnsafe_user := Some 7%Z |}.

Definition question (n : Z) : Question :=
  {| q_id := n; q_question := "?"; q_options := ["a"; "b"; "c"; "d"] |}.

Definition toTest (qs : list Question) (time_minutes : Z) : list Event :=
  [ Settle 0 (Body (DSpecializations [ {| spec_id := "civil"; spec_name := "Civil" |} ]));
    ClickSpecialization 0;
    InputFullName "Ivanov I.I."; InputPosition "Bailiff"; InputDepartment "OSP 1";
    ClickUserInfoNext;
    Settle 0 (Body (DDifficulties
      [ {| diff_id := "easy"; diff_name := "Easy";
           diff_questions := 5; diff_time_minutes := 10 |} ]));
    ClickDifficulty 0;
    Settle 0 (Body (DStart "s1" qs time_minutes)) ].

(** The requests to [POST /api/test/finish] among the emitted effects. *)
Definition is_finish (e : Effect) : bool :=
  match e with Fetch (PostFinish _ _) => true | _ => false end.

Definition finishes (m : Machine) : nat :=
  length (filter (λ e, is_finish e = true) (out m)).

(** ** Predicates on events and machines *)

(** What [tg?.showAlert(msg)] shows. *)
Definition alerts (tg : option TgWebApp) (msg : string) : list Effect :=
  match tg with Some _ => [ShowAlert msg] | None => [] end.

(** An event that can arm the countdown: the answer to
    [POST /api/test/start]. *)
Definition starts_session (e : Event) : bool :=
  match e with
  | Settle _ (Body (DStart _ _ _)) => true
  | _ => false
  end.

(** The interval exists exactly while the test is shown, with a question
    under the cursor, and time is left. *)
Definition timer_armed_iff (m : Machine) : Prop :=
  is_Some (timer m)
  ↔ screen (ui m) = scr_test ∧ (0 < timeLeft (ui m))%Z ∧ renders (ui m) = true.


(** The two places that call [handleFinishTest]: the tick that finds
    [prev <= 1], and the rest of a [submitAnswer] whose render was not
    before the last question. *)
Definition is_trigger (e : Event) (m : Machine) : bool :=
  match e with
  | Tick =>
      match timer m with
      | Some _ => bool_decide (timeLeft (ui m) ≤ 1)%Z
      | None => false
      end
  | Settle k (Body _) =>
      match inflight m !! k with
      | Some (AwaitAnswer r) =>
          bool_decide (¬ (Z.of_nat (currentQuestion r)
                          < Z.of_nat (length (questions r)) - 1)%Z)
      | _ => false
      end
  | _ => false
  end.

Fixpoint triggers (tg : option TgWebApp) (es : list Event) (m : Machine) : nat :=
  match es with
  | [] => 0
  | e :: es' => (if is_trigger e m then 1 else 0) + triggers tg es' (step tg e m)
  end.


(** An event other than a submission, or a submission together with the
    settling of its request. *)
Inductive Action :=
| Other (e : Event)
| Submit (o : Settled).

Definition act (tg : option TgWebApp) (a : Action) (m : Machine) : Machine :=
  match a with
  | Other ClickSubmit => m
  | Other e => step tg e m
  | Submit o => step tg (Settle (length (inflight m)) o) (step tg ClickSubmit m)
  end.

Definition acts (tg : option TgWebApp) (l : list Action) (m : Machine) : Machine :=
  foldl (λ m a, act tg a m) m l.

(** No [submitAnswer] is waiting for its request. *)
Definition answers_settled (m : Machine) : Prop :=
  Forall (λ p, match p with AwaitAnswer _ => False | _ => True end) (inflight m).

(** The cursor is an index of [questions] (or 0 when there are none). *)
Definition cursor_in_range (s : State) : Prop :=
  currentQuestion s < length (questions s) ∨ currentQuestion s = 0.

(** The events an action stands for. *)
Definition action_events (a : Action) (m : Machine) : list Event :=
  match a with
  | Other ClickSubmit => []
  | Other e => [e]
  | Submit o => [ClickSubmit; Settle (length (inflight m)) o]
  end.

(** The label of the submit button in [renderTest]. *)
Definition submitLabel (s : State) : string :=
  if decide (Z.of_nat (currentQuestion s)
             = Z.of_nat (length (questions s)) - 1)%Z
  then "Завершить" else "Далее →".

(** The bodies of the requests to [POST /api/test/start] among emitted
    effects, oldest first. *)
Definition start_bodies (l : list Effect) : list UserData :=
  omap (λ e, match e with Fetch (PostStart body) => Some body | _ => None end) l.

(** [userData.telegram_id] after the first effect. *)
Definition host_telegram_id (tg : option TgWebApp) : Z :=
  match tg with
  | Some app => default 0%Z (initDataUnsafe_user app)
  | None => 0%Z
  end.

(** Every request to start a test so far was sent without the difficulty
    chosen for it: the oldest one has none at all, and as long as there
    is none the profile has no difficulty either. *)
Definition first_start_blank (m : Machine) : Prop :=
  match start_bodies (out m) with
  | [] => difficulty (userData (ui m)) = ""
  | body :: _ => difficulty body = ""
  end.

(** The changes of screen the component makes: in the machine [m] the
    event [e] can lead to the screen [s']. A button works on the screen
    that draws it. A resolved request switches the screen from whatever
    screen is shown, whatever its body holds (the handlers read neither
    [response.ok] nor the shape of the body): which screen depends on
    the request that was answered, and the component must still be
    mounted. *)
Definition transition (m : Machine) (e : Event) (s' : Screen) : Prop :=
  let r := ui m in
  match e with
  | ClickSpecialization i =>
      screen r = scr_specialization ∧ is_Some (specializations r !! i)
      ∧ s' = scr_userInfo
  | ClickUserInfoBack => screen r = scr_userInfo ∧ s' = scr_specialization
  | ClickUserInfoNext =>
      screen r = scr_userInfo ∧ s' = scr_difficulty
      ∧ full_name (userData r) ≠ "" ∧ position (userData r) ≠ ""
      ∧ department (userData r) ≠ ""
  | ClickDifficultyBack =>
      screen r = scr_difficulty ∧ is_Some (difficulties r) ∧ s' = scr_userInfo
  | ClickResultExit =>
      screen r = scr_result ∧ is_Some (testResult r) ∧ s' = scr_specialization
  | ClickStatsBack =>
      screen r = scr_stats ∧ renders r = true ∧ is_Some (stats r)
      ∧ s' = scr_specialization
  | Settle k (Body _) =>
      renders r = true ∧
      match inflight m !! k with
      | Some AwaitStart => s' = scr_test
      | Some AwaitFinish => s' = scr_result
      | Some AwaitStats => s' = scr_stats
      | _ => False
      end
  | _ => False
  end.

(** The Telegram identity a request is made for. *)
Definition request_telegram (req : Request) : option Z :=
  match req with
  | PostStart body => Some (telegram_id body)
  | PostAnswer t _ _ _ | PostFinish t _ | GetStats t => Some t
  | GetSpecializations | GetDifficulties => None
  end.

(** The renders kept by a machine (the current one, those of suspended
    submissions, the one of the interval) and the requests it has sent
    all have the identity [uid]. *)
Definition identity_kept (uid : Z) (m : Machine) : Prop :=
  telegram_id (userData (ui m)) = uid ∧
  Forall (λ p, match p with
               | AwaitAnswer r => telegram_id (userData r) = uid
               | _ => True
               end) (inflight m) ∧
  (∀ c, timer m = Some c → telegram_id (userData c) = uid) ∧
  Forall (λ e, match e with
               | Fetch req => ∀ t, request_telegram req = Some t → t = uid
               | _ => True
               end) (out m).

(** No suspended submission, no entry of the history and no request to
    [POST /api/test/answer] holds an empty selection. *)
Definition answers_nonempty (m : Machine) : Prop :=
  Forall (λ p, match p with
               | AwaitAnswer r => selectedAnswers r ≠ ∅
               | _ => True
               end) (inflight m) ∧
  map_Forall (λ _ s, s ≠ (∅ : gset nat)) (answersHistory (ui m)) ∧
  Forall (λ e, match e with
               | Fetch (PostAnswer _ _ _ s) => s ≠ ∅
               | _ => True
               end) (out m).

(** ** The clock shown

    [s.padStart(n, c)] for a one-character [c], and [formatTime], with
    [Math.floor(seconds / 60)] and [seconds % 60] on integers; [pretty]
    is the decimal numeral of an integer, as a template literal and
    [toString] print it.

    This is the function of the source on the integers of
    [safe_integer] only: there the quotient, its floor and the remainder
    of the Numbers are those of [Z], and the numeral has all its digits.
    Beyond them the source rounds (above [2^53]) and prints an exponent
    (from [10^21] on), which these definitions do not follow; every
    statement about [formatTime] is made under [safe_integer]. *)

Definition padStart (n : nat) (c : ascii) (s : string) : string :=
  String.string_of_list_ascii (replicate (n - String.length s) c) +:+ s.

Definition formatTime (seconds : Z) : string :=
  let mins := (seconds `div` 60)%Z in
  let secs := Z.rem seconds 60 in
  pretty mins +:+ ":" +:+ padStart 2 "0"%char (pretty secs).

(** The value of a decimal digit, and of a field of two digits. *)
Definition digit_value (c : ascii) : option Z :=
  let n := nat_of_ascii c in
  if decide (48 ≤ n ∧ n ≤ 57)%nat then Some (Z.of_nat (n - 48)) else None.

Definition two_digits (s : string) : option Z :=
  match s with
  | String a (String b EmptyString) =>
      match digit_value a, digit_value b with
      | Some x, Some y => Some (10 * x + y)%Z
      | _, _ => None
      end
  | _ => None
  end.

(** The integers a JavaScript Number holds exactly: on them [+], [-] and
    [*] are the operations of [Z] as long as the result is one of them
    too, and up to [10^21] a Number is printed with all its digits. *)
Definition safe_integer (z : Z) : Prop := (- 2 ^ 53 ≤ z ≤ 2 ^ 53)%Z.

(** The answers to the start request in the run give a budget that is a
    whole number of minutes, not negative, whose seconds
    [time_minutes * 60] the code computes exactly. *)
Definition budget_exact (e : Event) : Prop :=
  match e with
  | Settle _ (Body (DStart _ _ time_minutes)) =>
      (0 ≤ time_minutes)%Z ∧ safe_integer (time_minutes * 60)
  | _ => True
  end.

(** ** Basic facts *)

Lemma ui_timerEffect before m : ui (timerEffect before m) = ui m.
Proof. unfold timerEffect. repeat case_decide; reflexivity. Qed.

Lemma out_timerEffect before m : out (timerEffect before m) = out m.
Proof. unfold timerEffect. repeat case_decide; reflexivity. Qed.

Lemma inflight_timerEffect before m : inflight (timerEffect before m) = inflight m.
Proof. unfold timerEffect. repeat case_decide; reflexivity. Qed.

Lemma timerEffect_same m : timerEffect (ui m) m = m.
Proof. unfold timerEffect. case_decide as H; [reflexivity|]. by destruct H. Qed.

Lemma machine_eta m :
  {| ui := ui m; inflight := inflight m; timer := timer m; out := out m |} = m.
Proof. destruct m; reflexivity. Qed.

Lemma run_app tg es1 es2 m : run tg (es1 ++ es2) m = run tg es2 (run tg es1 m).
Proof. unfold run. apply foldl_app. Qed.

Lemma run_snoc tg es e m : run tg (es ++ [e]) m = step tg e (run tg es m).
Proof. rewrite run_app. reflexivity. Qed.

Lemma falsy_empty s : falsy s = true ↔ s = "".
Proof. destruct s; simpl; split; congruence. Qed.


Lemma renders_test s q :
  screen s = scr_test → questions s !! currentQuestion s = Some q →
  renders s = true.
Proof. intros Hscr Hq. unfold renders. by rewrite Hscr, Hq. Qed.

Lemma handle_settle tg k o m p :
  inflight m !! k = Some p →
  handle tg (Settle k o) m
  = if renders (ui m) then resume tg p o (settle k m)
    else setState (freeze (ui m)) (resume tg p o (settle k m)).
Proof. intros Hk. unfold handle. rewrite Hk. by destruct (screen (ui m)). Qed.

Lemma step_settle tg k o m p :
  inflight m !! k = Some p → renders (ui m) = true →
  step tg (Settle k o) m = timerEffect (ui m) (resume tg p o (settle k m)).
Proof.
  intros Hk Hr. unfold step. by rewrite (handle_settle tg k o m p Hk), Hr.
Qed.

Lemma step_settle_none tg k o m :
  inflight m !! k = None → step tg (Settle k o) m = m.
Proof.
  intros Hk. unfold step.
  assert (handle tg (Settle k o) m = m) as ->; [|apply timerEffect_same].
  unfold handle. rewrite Hk. by destruct (screen (ui m)).
Qed.

Lemma submit_disabled_when_empty tg m :
  selectedAnswers (ui m) = ∅ → step tg ClickSubmit m = m.
Proof.
  intros Hsel. unfold step.
  assert (handle tg ClickSubmit m = m) as ->; [|apply timerEffect_same].
  unfold handle.
  destruct (screen (ui m)); try reflexivity.
  destruct (questions (ui m) !! currentQuestion (ui m)); [|reflexivity].
  rewrite Hsel. case_decide as Hsz; [reflexivity|].
  exfalso. apply Hsz. apply size_empty.
Qed.

Lemma step_submit tg m q :
  screen (ui m) = scr_test →
  questions (ui m) !! currentQuestion (ui m) = Some q →
  selectedAnswers (ui m) ≠ ∅ →
  step tg ClickSubmit m
  = fetch (PostAnswer (telegram_id (userData (ui m))) (sessionId (ui m))
             (q_id q) (selectedAnswers (ui m)))
          (AwaitAnswer (ui m)) m.
Proof.
  intros Hscr Hq Hsel. unfold step.
  assert (handle tg ClickSubmit m
          = fetch (PostAnswer (telegram_id (userData (ui m))) (sessionId (ui m))
                     (q_id q) (selectedAnswers (ui m)))
                  (AwaitAnswer (ui m)) m) as ->.
  { unfold handle, submitAnswer. rewrite Hscr, Hq.
    case_decide as Hsz; [|reflexivity].
    apply size_empty_inv in Hsz. exfalso. apply Hsel.
    by apply leibniz_equiv. }
  apply (timerEffect_same (fetch _ _ m)).
Qed.

(** ** The answer tracker *)

Lemma toggle_elem_of (i j : nat) (s : gset nat) :
  j ∈ toggle i s ↔ (j ∈ s ∧ j ≠ i) ∨ (j = i ∧ i ∉ s).
Proof. unfold toggle. case_decide; set_solver. Qed.

Lemma toggle_involutive (i : nat) (s : gset nat) : toggle i (toggle i s) = s.
Proof.
  apply set_eq. intros j. rewrite !toggle_elem_of.
  destruct (decide (j = i)) as [->|]; destruct (decide (i ∈ s)); naive_solver.
Qed.


(** C9. For every selection set [s] and option index [i], [toggle] adds
    [i] when it is absent and removes it when it is present, leaves the
    membership of every other index as it was, and applied twice gives
    [s] back; [toggleAnswer] changes [selectedAnswers] only, so the answer
    history (and the cursor) of the state is the same after it. *)
Theorem toggle_correct (s : gset nat) (i : nat) (st : State) :
  (i ∉ s → toggle i s = s ∪ {[i]}) ∧
  (i ∈ s → toggle i s = s ∖ {[i]}) ∧
  (i ∈ toggle i s ↔ i ∉ s) ∧
  (∀ j, j ≠ i → (j ∈ toggle i s ↔ j ∈ s)) ∧
  toggle i (toggle i s) = s ∧
  selectedAnswers (toggleAnswer i st) = toggle i (selectedAnswers st) ∧
  answersHistory (toggleAnswer i st) = answersHistory st ∧
  currentQuestion (toggleAnswer i st) = currentQuestion st.
Proof.
  split_and!; try reflexivity.
  - intros H. unfold toggle. case_decide; [contradiction | reflexivity].
  - intros H. unfold toggle. case_decide; [reflexivity | contradiction].
  - rewrite toggle_elem_of. naive_solver.
  - intros j Hj. rewrite toggle_elem_of. naive_solver.
  - apply toggle_involutive.
Qed.

(** ** Backward navigation *)

(** C10. [goToPreviousQuestion] never writes to the answer history: with
    the cursor above 0 the history after the move is the history before
    it, the cursor is one lower, and the selection shown is what the
    history holds for the new index (empty without an entry) whatever the
    selection was before, so toggles not yet submitted are dropped. The
    click on the button leaves the history alone in every state. *)
Theorem goToPreviousQuestion_keeps_history (tg : option TgWebApp) (m : Machine) :
  0 < currentQuestion (ui m) →
  let s := ui m in
  answersHistory (goToPreviousQuestion s s) = answersHistory s ∧
  currentQuestion (goToPreviousQuestion s s) = currentQuestion s - 1 ∧
  selectedAnswers (goToPreviousQuestion s s)
    = restore (answersHistory s) (currentQuestion s - 1) ∧
  (∀ sel, let s' := setSelectedAnswers sel s in
          goToPreviousQuestion s' s' = goToPreviousQuestion s s) ∧
  answersHistory (ui (step tg ClickPrevious m)) = answersHistory s.
Proof.
  intros Hpos s. unfold goToPreviousQuestion. subst s.
  split_and!.
  - case_decide; reflexivity.
  - case_decide; [reflexivity | lia].
  - case_decide; [reflexivity | lia].
  - intros sel. simpl. case_decide; [reflexivity | lia].
  - unfold step. rewrite ui_timerEffect. unfold handle.
    destruct (screen (ui m)); try reflexivity.
    destruct (questions (ui m) !! currentQuestion (ui m)); [|reflexivity].
    case_decide; [reflexivity|]. simpl. unfold goToPreviousQuestion.
    case_decide; reflexivity.
Qed.

Lemma goToPreviousQuestion_keeps_history_witness :
  let m := run host (toTest [question 1; question 2; question 3] 10
                     ++ [ClickOption 0; ClickSubmit; Settle 0 (Body DAck)])
               (mount host) in
  answersHistory (ui (step host ClickPrevious m)) = answersHistory (ui m).
Proof.
  intros m.
  apply (goToPreviousQuestion_keeps_history host m).
  vm_compute. lia.
Defined.

(** ** Profile submission *)

Lemma ui_showAlert tg msg m : ui (showAlert tg msg m) = ui m.
Proof. unfold showAlert. destruct tg; reflexivity. Qed.

Lemma inflight_showAlert tg msg m : inflight (showAlert tg msg m) = inflight m.
Proof. unfold showAlert. destruct tg; reflexivity. Qed.

Lemma timer_showAlert tg msg m : timer (showAlert tg msg m) = timer m.
Proof. unfold showAlert. destruct tg; reflexivity. Qed.

Lemma out_showAlert tg msg m :
  out (showAlert tg msg m) = out m ++ alerts tg msg.
Proof. unfold showAlert. destruct tg; simpl; [reflexivity | by rewrite app_nil_r]. Qed.

(** C8. On the profile screen with [full_name], [position] or
    [department] empty, [submitUserInfo] only shows the alert (when the
    Telegram host is there): no request is added, no handler is left
    waiting, and the state, hence the screen, is what it was. *)
Theorem submitUserInfo_incomplete (tg : option TgWebApp) (m : Machine) :
  screen (ui m) = scr_userInfo →
  full_name (userData (ui m)) = "" ∨ position (userData (ui m)) = ""
    ∨ department (userData (ui m)) = "" →
  let m' := step tg ClickUserInfoNext m in
  m' = submitUserInfo tg (ui m) m ∧
  ui m' = ui m ∧
  screen (ui m') = scr_userInfo ∧
  inflight m' = inflight m ∧
  timer m' = timer m ∧
  out m' = out m ++ alerts tg "Пожалуйста, заполните все поля".
Proof.
  intros Hscr Hempty m'.
  assert (submitUserInfo tg (ui m) m
          = showAlert tg "Пожалуйста, заполните все поля" m) as Hsub.
  { unfold submitUserInfo.
    destruct Hempty as [H | [H | H]]; rewrite H; simpl;
      rewrite ?orb_true_r; reflexivity. }
  assert (m' = submitUserInfo tg (ui m) m) as Hm'.
  { subst m'. unfold step, handle. rewrite Hscr, Hsub.
    rewrite <- (ui_showAlert tg "Пожалуйста, заполните все поля" m) at 1.
    apply timerEffect_same. }
  rewrite Hm', Hsub.
  rewrite ui_showAlert, inflight_showAlert, timer_showAlert, out_showAlert.
  split_and!; auto.
Qed.

Lemma submitUserInfo_incomplete_witness :
  let m := run host [ Settle 0 (Body (DSpecializations
                        [ {| spec_id := "civil"; spec_name := "Civil" |} ]));
                      ClickSpecialization 0; InputFullName "Ivanov I.I." ]
               (mount host) in
  ui (step host ClickUserInfoNext m) = ui m.
Proof.
  intros m.
  apply (submitUserInfo_incomplete host m).
  - vm_compute. reflexivity.
  - right. left. vm_compute. reflexivity.
Defined.

(** ** Answer submission *)

(** C3. With nothing selected the submit button, the only caller of
    [submitAnswer], is disabled, so the submission is a no-op: no request
    is sent, nothing is written into the history, the cursor stays and
    finalize is not triggered. *)
Theorem submit_click_disabled_when_empty (tg : option TgWebApp) (m : Machine) :
  selectedAnswers (ui m) = ∅ →
  step tg ClickSubmit m = m.
Proof.
  intros Hsel. unfold step.
  assert (handle tg ClickSubmit m = m) as ->; [|apply timerEffect_same].
  unfold handle.
  destruct (screen (ui m)); try reflexivity.
  destruct (questions (ui m) !! currentQuestion (ui m)); [|reflexivity].
  rewrite Hsel. case_decide as Hsz; [reflexivity|].
  exfalso. apply Hsz. apply size_empty.
Qed.

Lemma submit_click_disabled_when_empty_witness :
  let m := run host (toTest [question 1; question 2] 10) (mount host) in
  step host ClickSubmit m = m.
Proof.
  intros m. apply (submit_click_disabled_when_empty host m).
  vm_compute. reflexivity.
Defined.




(** ** The countdown *)

Ltac handlers :=
  unfold handle, tick, resume, goToPreviousQuestion, selectSpecialization,
    submitUserInfo,
    selectDifficulty, startTest, submitAnswer, loadStats, loadDifficulties,
    loadSpecializations, loadSpecializations_settled, loadDifficulties_settled,
    startTest_settled, submitAnswer_settled, handleFinishTest_settled,
    loadStats_settled, handleFinishTest, showAlert, console_error, fetch.

Lemma timer_handle tg e m : timer (handle tg e m) = timer m.
Proof.
  handlers. destruct tg; repeat (case_match || case_decide); simpl; congruence.
Qed.


Lemma timer_armed_iff_step tg e m :
  timer_armed_iff m → timer_armed_iff (step tg e m).
Proof.
  unfold timer_armed_iff, step, timerEffect. intros Hm.
  pose proof (timer_handle tg e m) as Ht.
  repeat case_decide; simpl.
  - rewrite Ht. destruct H as (-> & -> & ->). exact Hm.
  - split; [auto | intros _; eauto].
  - split; [intros [? ?]; discriminate | intros ?; contradiction].
Qed.

Lemma timer_armed_iff_run tg es m :
  timer_armed_iff m → timer_armed_iff (run tg es m).
Proof.
  revert m. induction es as [|e es IH]; intros m Hm; [exact Hm|].
  simpl. apply IH, timer_armed_iff_step, Hm.
Qed.

Lemma timer_armed_iff_mount tg : timer_armed_iff (mount tg).
Proof.
  unfold timer_armed_iff, mount. destruct tg as [[[uid|]]|]; simpl;
    (split; [intros [? ?]; discriminate | intros (? & _); discriminate]).
Qed.

Lemma timer_armed_iff_reachable tg es : timer_armed_iff (run tg es (mount tg)).
Proof. apply timer_armed_iff_run, timer_armed_iff_mount. Qed.



Lemma tick_disarmed tg m : timer m = None → step tg Tick m = m.
Proof.
  intros Ht. unfold step.
  assert (handle tg Tick m = m) as ->; [|apply timerEffect_same].
  unfold handle, tick. rewrite Ht. by destruct (screen (ui m)).
Qed.



(** ** Finalize *)

Lemma finishes_step tg e m :
  finishes (step tg e m) = finishes m + (if is_trigger e m then 1 else 0).
Proof.
  unfold finishes, step. rewrite out_timerEffect. unfold is_trigger.
  handlers.
  destruct tg; repeat (case_match || case_decide || case_bool_decide);
    simplify_eq; simpl; rewrite ?filter_app, ?length_app; simpl; try lia;
    try contradiction.
Qed.

(** C1, as the claim has it, fails: no flag guards [handleFinishTest].
    A session of one question and one minute; after 59 ticks the learner
    chooses an option and submits. The answer request settles and
    finalize is requested ([m1]: one request, still waiting); the next
    tick finds [timeLeft = 1] and requests finalize again for the same
    session while the first request is still in flight. *)
Lemma finalize_requested_twice :
  let es := toTest [question 1] 1 ++ repeat Tick 59
            ++ [ClickOption 0; ClickSubmit; Settle 0 (Body DAck)] in
  let m1 := run host es (mount host) in
  let m2 := step host Tick m1 in
  filter (λ e, is_finish e = true) (out m1) = [Fetch (PostFinish 7 "s1")] ∧
  inflight m1 = [AwaitFinish] ∧
  screen (ui m1) = scr_test ∧ timeLeft (ui m1) = 1%Z ∧
  filter (λ e, is_finish e = true) (out m2)
    = [Fetch (PostFinish 7 "s1"); Fetch (PostFinish 7 "s1")] ∧
  inflight m2 = [AwaitFinish; AwaitFinish].
Proof. vm_compute. split_and!; reflexivity. Qed.

(** C1, amended. [handleFinishTest] is invoked once per trigger, with no
    already-finalizing flag: it sends [POST /api/test/finish] whenever it
    is called, and along any sequence of events the number of finalize
    requests grows by one at every expiring tick and at every settled
    submission made on the last question, and at no other event. *)
Theorem finalize_once_per_trigger (tg : option TgWebApp) (es : list Event)
    (m : Machine) :
  (∀ r, finishes (handleFinishTest r m) = S (finishes m)) ∧
  finishes (run tg es m) = finishes m + triggers tg es m.
Proof.
  split.
  - intros r. unfold finishes, handleFinishTest, fetch. simpl.
    rewrite filter_app, length_app. simpl. lia.
  - revert m. induction es as [|e es IH]; intros m; simpl; [lia|].
    rewrite IH, finishes_step. lia.
Qed.

(** ** Selection and history *)




(** ** Two submissions in flight

    The submit button stays enabled while [POST /api/test/answer] is
    awaited, so it can be clicked again before the first request has
    settled. Both suspended calls belong to the same render: each tests
    its own [currentQuestion < questions.length - 1] and reads its own
    [answersHistory], while [setCurrentQuestion(prev => prev + 1)] counts
    from the state it finds. *)

(** C7. The cursor leaves the range. Two questions; one option chosen on
    question 0 and the submit button clicked twice before the first
    request settles; both requests are answered. Each continuation sees
    [0 < 2 - 1] and increments: the cursor is 2, the number of questions,
    and there is no question under it. *)
Theorem cursor_past_last_question :
  let es := toTest [question 1; question 2] 10
            ++ [ClickOption 0; ClickSubmit; ClickSubmit;
                Settle 0 (Body DAck); Settle 0 (Body DAck)] in
  let m := run host es (mount host) in
  screen (ui m) = scr_test ∧
  length (questions (ui m)) = 2 ∧
  currentQuestion (ui m) = 2 ∧
  questions (ui m) !! currentQuestion (ui m) = None ∧
  finishes m = 0.
Proof. vm_compute. split_and!; reflexivity. Qed.

(** C4. The selection shown is not the history's. Three questions;
    [{1}] is submitted on question 0 and [{2}] on question 1, which
    brings the cursor to question 2; the learner goes back twice and, on
    question 0, clicks submit twice before the first request settles.
    The first continuation moves to question 1, the second to question
    2 with the selection it read for index [0 + 1]: question 2, visited
    before and without an entry in the history, shows [{2}]. *)
Theorem stale_selection_restored :
  let es := toTest [question 1; question 2; question 3] 10
            ++ [ClickOption 0; ClickSubmit; Settle 0 (Body DAck);
                ClickOption 1; ClickSubmit; Settle 0 (Body DAck);
                ClickPrevious; ClickPrevious;
                ClickSubmit; ClickSubmit;
                Settle 0 (Body DAck); Settle 0 (Body DAck)] in
  let m := run host es (mount host) in
  currentQuestion (ui m) = 2 ∧
  answersHistory (ui m) = {[ 0 := {[ 1 ]}; 1 := {[ 2 ]} ]} ∧
  answersHistory (ui m) !! 2 = None ∧
  selectedAnswers (ui m) = {[ 2 ]}.
Proof. vm_compute. split_and!; reflexivity. Qed.

(** * Further properties of the component *)

(** ** The countdown effect *)

Lemma tick_step tg m :
  timer_armed_iff m → screen (ui m) = scr_test → renders (ui m) = true →
  (0 < timeLeft (ui m))%Z →
  ∃ c, timer m = Some c ∧
       handle tg Tick m
       = if decide (timeLeft (ui m) ≤ 1)%Z
         then setState (setTimeLeft 0) (handleFinishTest c m)
         else setState (setTimeLeft (timeLeft (ui m) - 1)) m.
Proof.
  intros Harmed Hscr Hr Hpos.
  destruct Harmed as [_ [c Hc]]; [by split_and!|].
  exists c. split; [exact Hc|].
  unfold handle, tick. rewrite Hc. by destruct (screen (ui m)).
Qed.

Lemma tick_decrements tg m :
  timer_armed_iff m → screen (ui m) = scr_test → renders (ui m) = true →
  (1 < timeLeft (ui m))%Z →
  ui (step tg Tick m) = setTimeLeft (timeLeft (ui m) - 1) (ui m) ∧
  out (step tg Tick m) = out m ∧
  inflight (step tg Tick m) = inflight m.
Proof.
  intros Harmed Hscr Hr Hpos.
  destruct (tick_step tg m Harmed Hscr Hr) as (c & Hc & Hh); [lia|].
  unfold step. rewrite ui_timerEffect, out_timerEffect, inflight_timerEffect, Hh.
  case_decide; [lia|]. split_and!; reflexivity.
Qed.

Lemma tick_expires tg m :
  timer_armed_iff m → screen (ui m) = scr_test → renders (ui m) = true →
  timeLeft (ui m) = 1%Z →
  timeLeft (ui (step tg Tick m)) = 0%Z ∧
  timer (step tg Tick m) = None ∧
  finishes (step tg Tick m) = S (finishes m).
Proof.
  intros Harmed Hscr Hr Hone.
  destruct (tick_step tg m Harmed Hscr Hr) as (c & Hc & Hh); [lia|].
  assert (timeLeft (ui (step tg Tick m)) = 0%Z) as Hz.
  { unfold step. rewrite ui_timerEffect, Hh. case_decide; [reflexivity | lia]. }
  split_and!; [exact Hz | |].
  - pose proof (timer_armed_iff_step tg Tick m Harmed) as [Hs _].
    destruct (timer (step tg Tick m)) eqn:Ht; [|reflexivity].
    destruct Hs as (_ & Hs & _); [by eexists | lia].
  - rewrite finishes_step. unfold is_trigger. rewrite Hc.
    rewrite bool_decide_eq_true_2 by lia. lia.
Qed.

Lemma ticks_count_down tg k m :
  timer_armed_iff m → screen (ui m) = scr_test → renders (ui m) = true →
  (Z.of_nat k < timeLeft (ui m))%Z →
  let mk := run tg (repeat Tick k) m in
  timer_armed_iff mk ∧ screen (ui mk) = scr_test ∧ renders (ui mk) = true ∧
  timeLeft (ui mk) = (timeLeft (ui m) - Z.of_nat k)%Z ∧
  out mk = out m ∧ inflight mk = inflight m.
Proof.
  revert m. induction k as [|k IH]; intros m Harmed Hscr Hr Hlt; simpl.
  - split_and!; auto. lia.
  - destruct (tick_decrements tg m Harmed Hscr Hr) as (Hui & Hout & Hin); [lia|].
    destruct (IH (step tg Tick m)) as (Ha & Hs & Hr' & Ht & Ho & Hi).
    + by apply timer_armed_iff_step.
    + rewrite Hui. exact Hscr.
    + rewrite Hui. exact Hr.
    + rewrite Hui. simpl. lia.
    + split_and!; auto.
      * rewrite Ht, Hui. simpl. lia.
      * congruence.
      * congruence.
Qed.

(** X1. In a reachable state the interval of the countdown exists
    exactly when the test screen is shown, a question is under the
    cursor (so that the screen is drawn) and time is left: leaving the
    test, [timeLeft] reaching 0, or a test screen that cannot be drawn
    clears it, and nothing else does. *)
Theorem countdown_runs_only_during_test (tg : option TgWebApp) (es : list Event) :
  let m := run tg es (mount tg) in
  is_Some (timer m)
  ↔ screen (ui m) = scr_test ∧ (0 < timeLeft (ui m))%Z
    ∧ is_Some (questions (ui m) !! currentQuestion (ui m)).
Proof.
  intros m. pose proof (timer_armed_iff_reachable tg es) as H. fold m in H.
  unfold timer_armed_iff in H. rewrite H. unfold renders.
  split; intros (Hscr & Hpos & Hq); (split_and!; [exact Hscr | exact Hpos |]).
  - rewrite Hscr in Hq. by destruct (questions (ui m) !! currentQuestion (ui m)).
  - rewrite Hscr. by destruct Hq as [q ->].
Qed.

(** X2. On the test screen with a question under the cursor, [n + 1]
    seconds left (a number the code counts exactly) and nothing but
    ticks happening, the first [n] ticks only count down (no request,
    same screen), and tick [n + 1] brings [timeLeft] to 0, requests
    finalize exactly once and clears the interval. *)
Theorem countdown_expires_after_budget (tg : option TgWebApp) (es : list Event)
    (n : nat) :
  let m := run tg es (mount tg) in
  screen (ui m) = scr_test →
  is_Some (questions (ui m) !! currentQuestion (ui m)) →
  timeLeft (ui m) = Z.of_nat (S n) →
  safe_integer (timeLeft (ui m)) →
  (∀ k : nat, (k ≤ n)%nat →
     let mk := run tg (repeat Tick k) m in
     timeLeft (ui mk) = (Z.of_nat (S n) - Z.of_nat k)%Z ∧
     screen (ui mk) = scr_test ∧ out mk = out m) ∧
  let m' := run tg (repeat Tick (S n)) m in
  timeLeft (ui m') = 0%Z ∧ timer m' = None ∧ finishes m' = S (finishes m).
Proof.
  intros m Hscr [q Hq] Hleft _.
  pose proof (renders_test _ q Hscr Hq) as Hr.
  pose proof (timer_armed_iff_reachable tg es) as Harmed. fold m in Harmed.
  split.
  - intros k Hk mk.
    destruct (ticks_count_down tg k m Harmed Hscr Hr) as (_ & Hs & _ & Ht & Ho & _);
      [lia|].
    subst mk. rewrite Ht, Hleft. auto.
  - intros m'. subst m'.
    assert (run tg (repeat Tick (S n)) m
            = step tg Tick (run tg (repeat Tick n) m)) as ->.
    { replace (S n) with (n + 1) by lia. rewrite repeat_app. apply run_snoc. }
    destruct (ticks_count_down tg n m Harmed Hscr Hr) as (Ha & Hs & Hr' & Ht & Ho & _);
      [lia|].
    destruct (tick_expires tg (run tg (repeat Tick n) m) Ha Hs Hr') as (Hz & Hn & Hf);
      [lia|].
    split_and!; [exact Hz | exact Hn |].
    rewrite Hf. unfold finishes. rewrite Ho. reflexivity.
Qed.

Lemma countdown_expires_after_budget_witness :
  let m := run host (toTest [question 1; question 2] 1) (mount host) in
  let m' := run host (repeat Tick 60) m in
  timeLeft (ui m') = 0%Z ∧ timer m' = None ∧ finishes m' = S (finishes m).
Proof.
  intros m.
  apply (countdown_expires_after_budget host (toTest [question 1; question 2] 1) 59).
  - vm_compute. reflexivity.
  - vm_compute. by eexists.
  - vm_compute. reflexivity.
  - unfold safe_integer. split; vm_compute; discriminate.
Defined.

(** ** Starting a session *)

Lemma start_bodies_app l1 l2 :
  start_bodies (l1 ++ l2) = start_bodies l1 ++ start_bodies l2.
Proof. apply omap_app. Qed.

Lemma handle_start_bodies tg e m :
  ∃ l, out (handle tg e m) = out m ++ l ∧
       ((start_bodies l = [] ∧
         difficulty (userData (ui (handle tg e m))) = difficulty (userData (ui m)))
        ∨ start_bodies l = [userData (ui m)]).
Proof.
  handlers.
  destruct tg; repeat (case_match || case_decide); simpl;
    rewrite <- ?app_assoc;
    first [ by (exists []; rewrite app_nil_r; auto)
          | by (eexists; split; [reflexivity | auto]) ].
Qed.

Lemma first_start_blank_step tg e m :
  first_start_blank m → first_start_blank (step tg e m).
Proof.
  unfold first_start_blank, step. rewrite ui_timerEffect, out_timerEffect.
  destruct (handle_start_bodies tg e m) as (l & -> & Hl).
  rewrite start_bodies_app.
  destruct (start_bodies (out m)) as [|b bs]; simpl; [|auto].
  destruct Hl as [[-> Hd] | ->]; simpl; congruence.
Qed.

Lemma first_start_blank_run tg es m :
  first_start_blank m → first_start_blank (run tg es m).
Proof.
  revert m. induction es as [|e es IH]; intros m Hm; [exact Hm|].
  simpl. apply IH, first_start_blank_step, Hm.
Qed.

Lemma first_start_blank_mount tg : first_start_blank (mount tg).
Proof. unfold first_start_blank, mount. by destruct tg as [[[uid|]]|]. Qed.

(** X4. A click on a difficulty (button enabled) sends [POST
    /api/test/start] with the profile of the render in which it was
    clicked: the body does not hold the difficulty just chosen, which
    reaches [userData] only in the next render. The click sets [loading],
    so a second click on any difficulty right after it does nothing. *)
Theorem difficulty_click_sends_previous_profile (tg : option TgWebApp)
    (m : Machine) (i : nat) (diff : DiffItem) :
  screen (ui m) = scr_difficulty →
  loading (ui m) = false →
  difficulties (ui m) !! i = Some diff →
  let m' := step tg (ClickDifficulty i) m in
  out m' = out m ++ [Fetch (PostStart (userData (ui m)))] ∧
  inflight m' = inflight m ++ [AwaitStart] ∧
  userData (ui m') = with_difficulty (diff_id diff) (userData (ui m)) ∧
  loading (ui m') = true ∧
  screen (ui m') = scr_difficulty ∧
  ∀ j, step tg (ClickDifficulty j) m' = m'.
Proof.
  intros Hscr Hload Hdiff m'.
  assert (m' = selectDifficulty (ui m) diff m) as Hm'.
  { subst m'. unfold step.
    assert (handle tg (ClickDifficulty i) m = selectDifficulty (ui m) diff m) as ->.
    { unfold handle. rewrite Hscr, Hdiff, Hload. reflexivity. }
    unfold timerEffect. case_decide as Hd; [reflexivity|].
    exfalso. apply Hd. simpl. auto. }
  rewrite Hm'. split_and!; try reflexivity.
  - simpl. exact Hscr.
  - intros j. unfold step.
    assert (handle tg (ClickDifficulty j) (selectDifficulty (ui m) diff m)
            = selectDifficulty (ui m) diff m) as ->; [|apply timerEffect_same].
    unfold handle. simpl. rewrite Hscr. by destruct (difficulties (ui m) !! j).
Qed.

Lemma difficulty_click_sends_previous_profile_witness :
  let m := run host (firstn 7 (toTest [question 1] 10)) (mount host) in
  difficulty (userData (ui m)) = "" ∧
  out (step host (ClickDifficulty 0) m)
  = out m ++ [Fetch (PostStart (userData (ui m)))].
Proof.
  intros m. split; [vm_compute; reflexivity|].
  apply (difficulty_click_sends_previous_profile host m 0
           {| diff_id := "easy"; diff_name := "Easy";
              diff_questions := 5; diff_time_minutes := 10 |});
    vm_compute; reflexivity.
Defined.

(** X5. Along every run of the component the first request to
    [POST /api/test/start] carries an empty [difficulty]: the profile has
    none before the first click on a difficulty, and that click sends the
    profile as it was. *)
Theorem first_start_request_has_no_difficulty (tg : option TgWebApp)
    (es : list Event) (body : UserData) (rest : list UserData) :
  start_bodies (out (run tg es (mount tg))) = body :: rest →
  difficulty body = "".
Proof.
  intros Hb.
  pose proof (first_start_blank_run tg es _ (first_start_blank_mount tg)) as H.
  unfold first_start_blank in H. rewrite Hb in H. exact H.
Qed.

Lemma first_start_request_has_no_difficulty_witness :
  ∃ body, start_bodies (out (run host (toTest [question 1] 10) (mount host)))
          = [body] ∧ difficulty body = "" ∧ specialization body = "civil".
Proof.
  eexists. split; [vm_compute; reflexivity|].
  split; [|reflexivity].
  apply (first_start_request_has_no_difficulty host (toTest [question 1] 10) _ []).
  vm_compute. reflexivity.
Defined.

Lemma run_ticks_disarmed tg n m :
  timer m = None → run tg (repeat Tick n) m = m.
Proof.
  intros Ht. induction n as [|n IH]; [reflexivity|].
  simpl. rewrite (tick_disarmed tg m Ht). exact IH.
Qed.

(** X3. When the answer to [POST /api/test/start] arrives while the
    component is mounted, with an integer [time_minutes] whose product
    with 60 the code computes exactly, the session is set up from it
    alone: cursor 0, nothing selected, empty history, the questions and
    the session id of the answer, [time_minutes * 60] seconds, the test
    screen, [loading] off, and no request sent. The countdown is armed
    exactly when [time_minutes] is positive and there is a question to
    show: with a budget of 0 or less no tick ever does anything, so such
    a test is not timed. *)
Theorem session_start (tg : option TgWebApp) (es : list Event) (k : nat)
    (session_id : string) (qs : list Question) (time_minutes : Z) :
  let m := run tg es (mount tg) in
  inflight m !! k = Some AwaitStart →
  renders (ui m) = true →
  safe_integer (time_minutes * 60) →
  let m' := step tg (Settle k (Body (DStart session_id qs time_minutes))) m in
  screen (ui m') = scr_test ∧
  sessionId (ui m') = session_id ∧
  questions (ui m') = qs ∧
  currentQuestion (ui m') = 0 ∧
  selectedAnswers (ui m') = ∅ ∧
  answersHistory (ui m') = ∅ ∧
  timeLeft (ui m') = (time_minutes * 60)%Z ∧
  loading (ui m') = false ∧
  userData (ui m') = userData (ui m) ∧
  out m' = out m ∧
  inflight m' = delete k (inflight m) ∧
  (is_Some (timer m') ↔ (0 < time_minutes)%Z ∧ qs ≠ []) ∧
  ((time_minutes ≤ 0)%Z → ∀ n, run tg (repeat Tick n) m' = m').
Proof.
  intros m Hk Hr _ m'.
  assert (timer_armed_iff m') as Harmed.
  { subst m' m. rewrite <- run_snoc. apply timer_armed_iff_reachable. }
  assert (m' = timerEffect (ui m)
                 (startTest_settled tg (Body (DStart session_id qs time_minutes))
                    (settle k m))) as Hm'.
  { subst m'.
    by rewrite (step_settle tg k (Body (DStart session_id qs time_minutes))
                  m AwaitStart Hk Hr). }
  assert (ui m' = ui (startTest_settled tg
                        (Body (DStart session_id qs time_minutes)) (settle k m)))
    as Hui by (rewrite Hm'; apply ui_timerEffect).
  assert (is_Some (timer m') ↔ (0 < time_minutes)%Z ∧ qs ≠ []) as Htimer.
  { unfold timer_armed_iff in Harmed. rewrite Harmed, Hui.
    unfold renders. simpl. destruct qs as [|q qs]; simpl.
    - split; [intros (_ & _ & ?); discriminate | intros [_ ?]; done].
    - split; [intros (_ & ? & _); split; [lia | done]
             | intros [? _]; split_and!; [reflexivity | lia | reflexivity]]. }
  rewrite Hui. split_and!; try reflexivity.
  - rewrite Hm', out_timerEffect. reflexivity.
  - rewrite Hm', inflight_timerEffect. reflexivity.
  - exact Htimer.
  - intros Hle n. apply run_ticks_disarmed.
    destruct (timer m') eqn:Ht; [|reflexivity].
    destruct Htimer as [Htimer _]. specialize (Htimer ltac:(by eexists)). lia.
Qed.

Lemma session_start_witness :
  let m := run host (firstn 8 (toTest [question 1] 0)) (mount host) in
  let m' := step host (Settle 0 (Body (DStart "s1" [question 1] 0))) m in
  screen (ui m') = scr_test ∧ timeLeft (ui m') = 0%Z ∧ timer m' = None.
Proof.
  intros m m'.
  destruct (session_start host (firstn 8 (toTest [question 1] 0)) 0
              "s1" [question 1] 0) as (Hs & _ & _ & _ & _ & _ & Ht & _);
    [ vm_compute; reflexivity | vm_compute; reflexivity
    | unfold safe_integer; split; vm_compute; discriminate |].
  split_and!; [exact Hs | exact Ht | vm_compute; reflexivity].
Defined.

(** ** Requests that fail *)






(** ** Navigation *)

Lemma falsy_false s : falsy s = false → s ≠ "".
Proof. destruct s; [discriminate | intros _; discriminate]. Qed.

(** X7. Every event either leaves the screen as it is or makes one of the
    moves of [transition]: the buttons lead from the screen they are on
    to the next or the previous one ([userInfo] to [difficulty] only with
    the three fields filled in), and the test, result and statistics
    screens are entered only when the start, finish or statistics request
    of a mounted component resolves, with any body. Ticks, option
    clicks, submissions, backward moves within the test, failed requests
    and requests resolved after the component was unmounted never change
    the screen. *)
Theorem screen_transitions (tg : option TgWebApp) (e : Event) (m : Machine) :
  screen (ui (step tg e m)) = screen (ui m)
  ∨ transition m e (screen (ui (step tg e m))).
Proof.
  unfold step. rewrite ui_timerEffect.
  destruct e; try (left; handlers;
                   destruct tg; repeat (case_match || case_decide); simpl; congruence).
  - unfold handle. destruct (screen (ui m)) eqn:Hscr; try by left.
    destruct (specializations (ui m) !! i) eqn:Hi; [|by left].
    right. simpl. rewrite Hscr, Hi. eauto.
  - unfold handle. destruct (screen (ui m)) eqn:Hscr; try by left.
    right. simpl. auto.
  - unfold handle. destruct (screen (ui m)) eqn:Hscr; try by left.
    unfold submitUserInfo.
    destruct (falsy (full_name (userData (ui m)))) eqn:H1; simpl;
      [left; by rewrite ui_showAlert|].
    destruct (falsy (position (userData (ui m)))) eqn:H2; simpl;
      [left; by rewrite ui_showAlert|].
    destruct (falsy (department (userData (ui m)))) eqn:H3; simpl;
      [left; by rewrite ui_showAlert|].
    right. rewrite Hscr. split_and!; auto using falsy_false.
  - unfold handle. destruct (screen (ui m)) eqn:Hscr; try by left.
    destruct (difficulties (ui m)) eqn:Hd; [|by left].
    right. simpl. rewrite Hscr, Hd. eauto.
  - unfold handle. destruct (screen (ui m)) eqn:Hscr; try by left.
    destruct (testResult (ui m)) eqn:Hr; [|by left].
    right. simpl. rewrite Hscr, Hr. eauto.
  - unfold handle. destruct (screen (ui m)) eqn:Hscr; try by left.
    destruct (stats (ui m)) as [[]|] eqn:Hr; try by left.
    right. simpl. unfold renders. rewrite Hscr, Hr. eauto.
  - destruct (inflight m !! k) as [p|] eqn:Hk;
      [|left; unfold handle; rewrite Hk; by destruct (screen (ui m))].
    rewrite (handle_settle tg k o m p Hk).
    destruct (renders (ui m)) eqn:Hr; [|by left].
    destruct o as [|d].
    { left. destruct p; simpl; unfold loadSpecializations_settled,
        loadDifficulties_settled, startTest_settled, handleFinishTest_settled,
        loadStats_settled, submitAnswer_settled; simpl;
        rewrite ?ui_showAlert; reflexivity. }
    destruct p; simpl; rewrite ?Hk.
    + by left.
    + by left.
    + right. split; [done|]. by destruct d.
    + left. unfold submitAnswer_settled. case_decide; reflexivity.
    + by right.
    + by right.
Qed.

(** ** What is written into the history *)

(** X8. The answer history changes at two places only. The answer to the
    start request empties it. The rest of a [submitAnswer] whose request
    resolved writes the selection of its render under the index of its
    render and leaves every other entry as it was. No other event (not a
    toggle, a backward move, a tick, a failed request or a finalize)
    changes the history. *)
Theorem history_written_only_by_submission (tg : option TgWebApp) (e : Event)
    (m : Machine) :
  let h := answersHistory (ui m) in
  let h' := answersHistory (ui (step tg e m)) in
  h' = h
  ∨ (starts_session e = true ∧ h' = ∅)
  ∨ (∃ k r d, e = Settle k (Body d) ∧
              inflight m !! k = Some (AwaitAnswer r) ∧
              h' = <[currentQuestion r := selectedAnswers r]> h ∧
              h' !! currentQuestion r = Some (selectedAnswers r) ∧
              ∀ j, j ≠ currentQuestion r → h' !! j = h !! j).
Proof.
  intros h h'. subst h h'. unfold step. rewrite ui_timerEffect.
  destruct e; try (left; handlers;
                   destruct tg; repeat (case_match || case_decide); simpl; congruence).
  destruct (inflight m !! k) as [p|] eqn:Hk;
    [|left; unfold handle; rewrite Hk; by destruct (screen (ui m))].
  assert (answersHistory (ui (handle tg (Settle k o) m))
          = answersHistory (ui (resume tg p o (settle k m)))) as ->.
  { rewrite (handle_settle tg k o m p Hk). by destruct (renders (ui m)). }
  destruct o as [|d].
  { left. destruct p; simpl; unfold loadSpecializations_settled,
      loadDifficulties_settled, startTest_settled, handleFinishTest_settled,
      loadStats_settled; simpl; rewrite ?ui_showAlert; reflexivity. }
  destruct p.
  - left. by destruct d.
  - left. by destruct d.
  - destruct d; try by left. right. left. auto.
  - right. right. exists k, r, d.
    assert (answersHistory (ui (resume tg (AwaitAnswer r) (Body d) (settle k m)))
            = <[currentQuestion r := selectedAnswers r]> (answersHistory (ui m)))
      as ->.
    { simpl. unfold submitAnswer_settled. case_decide; reflexivity. }
    split_and!; auto.
    + apply lookup_insert_eq.
    + intros j Hj. by apply lookup_insert_ne.
  - left. by destruct d.
  - left. by destruct d.
Qed.

(** ** The identity of the user *)

Lemma telegram_handle tg e m :
  telegram_id (userData (ui (handle tg e m))) = telegram_id (userData (ui m)).
Proof.
  handlers. destruct tg; repeat (case_match || case_decide); reflexivity.
Qed.

Lemma identity_kept_handle tg uid e m :
  identity_kept uid m → identity_kept uid (handle tg e m).
Proof.
  intros (Hui & Hin & Ht & Hout). unfold identity_kept.
  rewrite telegram_handle, timer_handle. split_and!; [exact Hui | | exact Ht |].
  - destruct e; try (handlers; destruct tg;
                     repeat (case_match || case_decide); simpl;
                     rewrite ?Forall_app; repeat split;
                     auto using Forall_delete; by repeat constructor).
  - destruct e; try by (handlers; destruct tg;
                        repeat (case_match || case_decide); simpl;
                        rewrite ?Forall_app; repeat split; auto;
                        repeat constructor; simpl; intros; simplify_eq; auto).
    destruct (inflight m !! k) as [p|] eqn:Hk;
        [|unfold handle; rewrite Hk; by destruct (screen (ui m))].
      pose proof (Forall_lookup_1 _ _ _ _ Hin Hk) as Hp.
      assert (Forall (λ e, match e with
                   | Fetch req => ∀ t, request_telegram req = Some t → t = uid
                   | _ => True
                   end) (out (resume tg p o (settle k m)))) as Hres.
      { destruct p, o as [|d]; try destruct d; simpl;
          unfold loadSpecializations_settled, loadDifficulties_settled,
            startTest_settled, handleFinishTest_settled, loadStats_settled,
            submitAnswer_settled; simpl;
          rewrite ?out_showAlert; simpl; try exact Hout;
          try case_decide; simpl; rewrite ?Forall_app; repeat split;
          try exact Hout; unfold alerts; try destruct tg;
          repeat first [ apply Forall_nil_2
                       | apply Forall_cons_2; [simpl; try exact I|] ];
          intros t' [= <-]; exact Hp. }
      rewrite (handle_settle tg k o m p Hk). by destruct (renders (ui m)).
Qed.

Lemma identity_kept_step tg uid e m :
  identity_kept uid m → identity_kept uid (step tg e m).
Proof.
  intros Hm. apply (identity_kept_handle tg uid e) in Hm.
  destruct Hm as (Hui & Hin & Ht & Hout).
  unfold step, identity_kept.
  rewrite ui_timerEffect, inflight_timerEffect, out_timerEffect.
  split_and!; auto.
  unfold timerEffect. repeat case_decide; simpl; auto; congruence.
Qed.

Lemma identity_kept_run tg uid es m :
  identity_kept uid m → identity_kept uid (run tg es m).
Proof.
  revert m. induction es as [|e es IH]; intros m Hm; [exact Hm|].
  simpl. apply IH, identity_kept_step, Hm.
Qed.

Lemma identity_kept_mount tg : identity_kept (host_telegram_id tg) (mount tg).
Proof.
  unfold identity_kept, mount, host_telegram_id.
  destruct tg as [[[uid|]]|]; simpl;
    (split_and!; [ reflexivity | by repeat constructor | intros c; discriminate
                 | apply Forall_cons_2; [intros t; discriminate | constructor] ]).
Qed.

(** X9. The identity read from the Telegram host at mount (0 without a host
    or without a user) is never changed afterwards, and every request
    that names a user ([POST /api/test/start], [/answer], [/finish] and
    [GET /api/stats]) names this one, also when it is sent by a handler
    or an interval of an earlier render. *)
Theorem requests_carry_host_identity (tg : option TgWebApp) (es : list Event) :
  let m := run tg es (mount tg) in
  telegram_id (userData (ui m)) = host_telegram_id tg ∧
  ∀ req t, Fetch req ∈ out m → request_telegram req = Some t →
           t = host_telegram_id tg.
Proof.
  intros m.
  destruct (identity_kept_run tg _ es _ (identity_kept_mount tg))
    as (Hui & _ & _ & Hout).
  split; [exact Hui|].
  intros req t Hin. rewrite Forall_forall in Hout.
  exact (Hout _ Hin t).
Qed.

(** ** Empty selections *)

Lemma answers_nonempty_handle tg e m :
  answers_nonempty m → answers_nonempty (handle tg e m).
Proof.
  intros (Hin & Hh & Hout). unfold answers_nonempty.
  destruct e;
    try by (handlers; destruct tg; repeat (case_match || case_decide); simpl;
            rewrite ?Forall_app; split_and!; auto; by repeat constructor).
  - unfold handle. destruct (screen (ui m)); try by split_and!.
    destruct (questions (ui m) !! currentQuestion (ui m)) as [q|] eqn:Hq;
      [|by split_and!].
    case_decide as Hsz; [by split_and!|].
    assert (selectedAnswers (ui m) ≠ ∅) as Hne.
    { intros Hempty. apply Hsz. rewrite Hempty. apply size_empty. }
    unfold submitAnswer. rewrite Hq. simpl. rewrite !Forall_app.
    split_and!; auto; by repeat constructor.
  - destruct (inflight m !! k) as [p|] eqn:Hk;
      [|unfold handle; rewrite Hk; destruct (screen (ui m)); by split_and!].
    pose proof (Forall_lookup_1 _ _ _ _ Hin Hk) as Hp.
    pose proof (Forall_delete _ _ k Hin) as Hdel.
    assert (answers_nonempty (resume tg p o (settle k m))) as Hres.
    { unfold answers_nonempty.
      destruct p, o as [|d]; try destruct d; simpl;
        unfold loadSpecializations_settled, loadDifficulties_settled,
          startTest_settled, handleFinishTest_settled, loadStats_settled,
          submitAnswer_settled; simpl;
        rewrite ?inflight_showAlert, ?ui_showAlert, ?out_showAlert; simpl;
        try case_decide; simpl;
        (split_and!;
         [ rewrite ?Forall_app; repeat split; try exact Hdel;
           by repeat constructor
         | first [ exact Hh | apply map_Forall_empty
                 | by apply map_Forall_insert_2 ]
         | rewrite ?Forall_app; repeat split; try exact Hout;
           unfold alerts; destruct tg; by repeat constructor ]). }
    rewrite (handle_settle tg k o m p Hk). by destruct (renders (ui m)).
Qed.

Lemma answers_nonempty_run tg es m :
  answers_nonempty m → answers_nonempty (run tg es m).
Proof.
  revert m. induction es as [|e es IH]; intros m Hm; [exact Hm|].
  simpl. apply IH. unfold step.
  apply (answers_nonempty_handle tg e) in Hm.
  unfold answers_nonempty in *.
  by rewrite ui_timerEffect, inflight_timerEffect, out_timerEffect.
Qed.

Lemma answers_nonempty_mount tg : answers_nonempty (mount tg).
Proof.
  unfold answers_nonempty, mount.
  destruct tg as [[[uid|]]|]; simpl;
    (split_and!; [by repeat constructor | apply map_Forall_empty
                 | by repeat constructor]).
Qed.

(** X10. [submitAnswer] does not look at the selection, but the only way to
    call it is the submit button, which is disabled while nothing is
    selected: in every run of the component each request to
    [POST /api/test/answer] carries at least one option, and every entry
    of the answer history is a non-empty set. *)
Theorem no_empty_answer_is_recorded (tg : option TgWebApp) (es : list Event) :
  let m := run tg es (mount tg) in
  (∀ t session q s, Fetch (PostAnswer t session q s) ∈ out m → s ≠ ∅) ∧
  (∀ j s, answersHistory (ui m) !! j = Some s → s ≠ ∅).
Proof.
  intros m.
  destruct (answers_nonempty_run tg es _ (answers_nonempty_mount tg))
    as (_ & Hh & Hout).
  split.
  - intros t session q s Hin. rewrite Forall_forall in Hout.
    exact (Hout _ Hin).
  - intros j s Hj. exact (Hh j s Hj).
Qed.

(** ** Submissions that do not overlap

    The runs in which every answer request settles before the next
    event. *)

Lemma step_submit_cases tg m :
  step tg ClickSubmit m = m
  ∨ ∃ q, screen (ui m) = scr_test ∧
         questions (ui m) !! currentQuestion (ui m) = Some q ∧
         selectedAnswers (ui m) ≠ ∅ ∧
         step tg ClickSubmit m
         = fetch (PostAnswer (telegram_id (userData (ui m))) (sessionId (ui m))
                    (q_id q) (selectedAnswers (ui m)))
                 (AwaitAnswer (ui m)) m.
Proof.
  destruct (decide (screen (ui m) = scr_test)) as [Hscr|Hscr].
  - destruct (questions (ui m) !! currentQuestion (ui m)) as [q|] eqn:Hq.
    + destruct (decide (selectedAnswers (ui m) = ∅)) as [Hsel|Hsel].
      * left. by apply submit_disabled_when_empty.
      * right. exists q. split_and!; auto. by apply step_submit.
    + left. unfold step.
      assert (handle tg ClickSubmit m = m) as ->; [|apply timerEffect_same].
      unfold handle. rewrite Hscr, Hq. reflexivity.
  - left. unfold step.
    assert (handle tg ClickSubmit m = m) as ->; [|apply timerEffect_same].
    unfold handle. by destruct (screen (ui m)).
Qed.

Lemma answers_settled_handle tg e m :
  e ≠ ClickSubmit → answers_settled m → answers_settled (handle tg e m).
Proof.
  intros He Hs. unfold answers_settled in *.
  destruct e; try done;
    try by (handlers; destruct tg; repeat (case_match || case_decide); simpl;
            rewrite ?Forall_app; repeat split; auto using Forall_delete;
            by repeat constructor).
Qed.

Lemma cursor_in_range_handle tg e m :
  e ≠ ClickSubmit → answers_settled m → cursor_in_range (ui m) →
  cursor_in_range (ui (handle tg e m)).
Proof.
  intros He Hs Hc. unfold cursor_in_range in *.
  destruct e; try done;
    try by (handlers; destruct tg; repeat (case_match || case_decide); simpl;
            auto).
  - unfold handle. destruct (screen (ui m)); auto.
    destruct (questions (ui m) !! currentQuestion (ui m)); auto.
    case_decide; auto. simpl. unfold goToPreviousQuestion.
    case_decide; simpl; lia.
  - destruct (inflight m !! k) as [p|] eqn:Hk;
      [|unfold handle; rewrite Hk; by destruct (screen (ui m))].
    pose proof (Forall_lookup_1 _ _ _ _ Hs Hk) as Hp.
    rewrite (handle_settle tg k o m p Hk).
    destruct (renders (ui m)); [|exact Hc].
    destruct p, o as [|d]; try destruct d; try done;
      simpl; unfold loadSpecializations_settled, loadDifficulties_settled,
        startTest_settled, handleFinishTest_settled, loadStats_settled;
      simpl; rewrite ?ui_showAlert; simpl; auto.
Qed.

Lemma settled_cursor_step tg e m :
  e ≠ ClickSubmit → answers_settled m → cursor_in_range (ui m) →
  answers_settled (step tg e m) ∧ cursor_in_range (ui (step tg e m)).
Proof.
  intros He Hs Hc. unfold step, answers_settled.
  rewrite ui_timerEffect, inflight_timerEffect.
  split; [by apply answers_settled_handle | by apply cursor_in_range_handle].
Qed.

Lemma delete_last {A} (l : list A) (x : A) : delete (length l) (l ++ [x]) = l.
Proof. induction l as [|y l IH]; simpl; [reflexivity | by rewrite IH]. Qed.

Lemma settled_cursor_submit tg o m :
  answers_settled m → cursor_in_range (ui m) →
  answers_settled (act tg (Submit o) m) ∧
  cursor_in_range (ui (act tg (Submit o) m)).
Proof.
  intros Hs Hc. unfold act.
  destruct (step_submit_cases tg m) as [-> | (q & Hscr & Hq & Hsel & ->)].
  - rewrite step_settle_none; [by split|].
    apply lookup_ge_None. lia.
  - rewrite (step_settle tg _ o _ (AwaitAnswer (ui m)));
      [| simpl; apply list_lookup_middle; reflexivity
       | exact (renders_test _ q Hscr Hq) ].
    unfold answers_settled, cursor_in_range in *.
    rewrite ui_timerEffect, inflight_timerEffect. simpl.
    apply lookup_lt_Some in Hq.
    unfold submitAnswer_settled.
    destruct o as [|d]; simpl; [rewrite delete_last; by split|].
    case_decide; simpl; rewrite delete_last.
    + split; [exact Hs | lia].
    + split; [|lia]. apply Forall_app. split; [exact Hs | by repeat constructor].
Qed.

Lemma settled_cursor_act tg a m :
  answers_settled m → cursor_in_range (ui m) →
  answers_settled (act tg a m) ∧ cursor_in_range (ui (act tg a m)).
Proof.
  intros Hs Hc. destruct a as [e|o]; [|by apply settled_cursor_submit].
  destruct e; simpl; try (apply settled_cursor_step; [discriminate | done | done]).
  by split.
Qed.

Lemma act_is_run tg a m : act tg a m = run tg (action_events a m) m.
Proof. destruct a as [e|o]; [by destruct e | reflexivity]. Qed.

(** X11. As long as every answer request settles before the next event (each
    submission is followed at once by the settling of its request), the
    cursor stays on a question: after any such sequence of events from
    the mount, [currentQuestion] is below [questions.length] whenever
    there are questions, and 0 when there are none. Each such sequence
    is a run of the component. *)
Theorem cursor_in_range_without_overlap (tg : option TgWebApp) (l : list Action) :
  let m := acts tg l (mount tg) in
  (questions (ui m) ≠ [] → currentQuestion (ui m) < length (questions (ui m))) ∧
  (questions (ui m) = [] → currentQuestion (ui m) = 0) ∧
  reachable tg m.
Proof.
  intros m.
  assert (answers_settled m ∧ cursor_in_range (ui m) ∧ reachable tg m)
    as (_ & Hc & Hr).
  { subst m. induction l as [|a l IH] using rev_ind.
    - split_and!.
      + unfold answers_settled, mount. simpl. by repeat constructor.
      + right. unfold mount. by destruct tg as [[[uid|]]|].
      + by exists [].
    - unfold acts in *. rewrite foldl_app. simpl.
      destruct IH as (Hs & Hc & [es Hes]).
      destruct (settled_cursor_act tg a _ Hs Hc) as [Hs' Hc'].
      split_and!; [exact Hs' | exact Hc' |].
      exists (es ++ action_events a (foldl (λ m a, act tg a m) (mount tg) l)).
      rewrite act_is_run, run_app, <- Hes. reflexivity. }
  split_and!; [| | exact Hr].
  - intros Hq. destruct Hc as [Hc | Hc]; [exact Hc|].
    rewrite Hc. destruct (questions (ui m)); [done | simpl; lia].
  - intros Hq. destruct Hc as [Hc | Hc]; [|exact Hc].
    rewrite Hq in Hc. simpl in Hc. lia.
Qed.

Lemma cursor_in_range_without_overlap_witness :
  let m := acts host
             (map Other (toTest [question 1; question 2] 10)
              ++ [Other (ClickOption 0); Submit (Body DAck);
                  Other (ClickOption 1); Submit (Body DAck)])
             (mount host) in
  currentQuestion (ui m) = 1 ∧ finishes m = 1 ∧
  currentQuestion (ui m) < length (questions (ui m)).
Proof.
  intros m. split_and!; [vm_compute; reflexivity | vm_compute; reflexivity |].
  apply (cursor_in_range_without_overlap host).
  vm_compute. discriminate.
Defined.

(** ** Forward and back *)

Lemma submit_settled tg m q d :
  screen (ui m) = scr_test →
  questions (ui m) !! currentQuestion (ui m) = Some q →
  selectedAnswers (ui m) ≠ ∅ →
  step tg (Settle (length (inflight m)) (Body d)) (step tg ClickSubmit m)
  = timerEffect (ui m)
      (submitAnswer_settled (ui m) (Body d)
         (emit (Fetch (PostAnswer (telegram_id (userData (ui m)))
                         (sessionId (ui m)) (q_id q) (selectedAnswers (ui m))))
               m)).
Proof.
  intros Hscr Hq Hsel.
  rewrite (step_submit tg m q Hscr Hq Hsel).
  rewrite (step_settle tg _ (Body d) _ (AwaitAnswer (ui m)));
    [| simpl; apply list_lookup_middle; reflexivity
     | exact (renders_test _ q Hscr Hq) ].
  simpl. unfold settle, fetch, suspend. simpl. rewrite delete_last.
  reflexivity.
Qed.

(** X12. Submitting on a question that is not the last one and then going
    back is a round trip: once the answer request has resolved the cursor
    is one further, the button there reads [Далее →] before the
    click, and the backward move returns to the question with exactly
    the selection that was submitted, which is also what the history now
    holds for it. *)
Theorem submit_then_back_restores (tg : option TgWebApp) (m : Machine)
    (q : Question) (d : Data) :
  screen (ui m) = scr_test →
  questions (ui m) !! currentQuestion (ui m) = Some q →
  selectedAnswers (ui m) ≠ ∅ →
  S (currentQuestion (ui m)) < length (questions (ui m)) →
  let m1 := step tg (Settle (length (inflight m)) (Body d))
              (step tg ClickSubmit m) in
  let m2 := step tg ClickPrevious m1 in
  submitLabel (ui m) = "Далее →" ∧
  currentQuestion (ui m1) = S (currentQuestion (ui m)) ∧
  selectedAnswers (ui m1)
    = restore (answersHistory (ui m)) (S (currentQuestion (ui m))) ∧
  finishes m1 = finishes m ∧
  currentQuestion (ui m2) = currentQuestion (ui m) ∧
  selectedAnswers (ui m2) = selectedAnswers (ui m) ∧
  answersHistory (ui m2)
    = <[currentQuestion (ui m) := selectedAnswers (ui m)]> (answersHistory (ui m)).
Proof.
  intros Hscr Hq Hsel Hlt m1 m2.
  assert (ui m1
          = setSelectedAnswers
              (restore (answersHistory (ui m)) (currentQuestion (ui m) + 1))
              (updCurrentQuestion (λ prev, prev + 1)
                 (updAnswersHistory
                    (λ prev, <[currentQuestion (ui m) := selectedAnswers (ui m)]> prev)
                    (ui m)))) as Hui1.
  { subst m1. rewrite (submit_settled tg m q d Hscr Hq Hsel), ui_timerEffect.
    unfold submitAnswer_settled. case_decide; [reflexivity | lia]. }
  assert (finishes m1 = finishes m) as Hfin.
  { subst m1. rewrite (submit_settled tg m q d Hscr Hq Hsel).
    unfold finishes. rewrite out_timerEffect.
    unfold submitAnswer_settled. case_decide; [|lia]. simpl.
    rewrite filter_app. simpl. rewrite app_nil_r. reflexivity. }
  assert (ui m2 = goToPreviousQuestion (ui m1) (ui m1)) as Hui2.
  { subst m2. unfold step. rewrite ui_timerEffect. unfold handle.
    rewrite Hui1. simpl. rewrite Hscr.
    destruct (lookup_lt_is_Some_2 (questions (ui m))
                (currentQuestion (ui m) + 1)) as [q' ->]; [lia|].
    case_decide; [lia|]. simpl. rewrite Hui1. reflexivity. }
  split_and!.
  - unfold submitLabel. case_decide; [lia | reflexivity].
  - rewrite Hui1. simpl. lia.
  - rewrite Hui1. simpl. f_equal. lia.
  - exact Hfin.
  - rewrite Hui2, Hui1. unfold goToPreviousQuestion. simpl.
    case_decide; simpl; lia.
  - rewrite Hui2, Hui1. unfold goToPreviousQuestion. simpl.
    case_decide; [|lia]. simpl. unfold restore.
    replace (currentQuestion (ui m) + 1 - 1) with (currentQuestion (ui m)) by lia.
    by rewrite lookup_insert_eq.
  - rewrite Hui2, Hui1. unfold goToPreviousQuestion. simpl.
    case_decide; reflexivity.
Qed.

Lemma submit_then_back_restores_witness :
  let m := run host (toTest [question 1; question 2; question 3] 10
                     ++ [ClickOption 0; ClickOption 2]) (mount host) in
  let m2 := step host ClickPrevious
              (step host (Settle (length (inflight m)) (Body DAck))
                 (step host ClickSubmit m)) in
  selectedAnswers (ui m) = {[ 1; 3 ]} ∧
  currentQuestion (ui m2) = currentQuestion (ui m) ∧
  selectedAnswers (ui m2) = selectedAnswers (ui m).
Proof.
  intros m m2.
  assert (selectedAnswers (ui m) = {[ 1; 3 ]}) as Hsel
    by (vm_compute; reflexivity).
  destruct (submit_then_back_restores host m (question 1) DAck)
    as (_ & _ & _ & _ & Hc & Hs & _).
  - vm_compute. reflexivity.
  - vm_compute. reflexivity.
  - rewrite Hsel. intros H.
    assert (1 ∈ (∅ : gset nat)) as Hin; [|by apply not_elem_of_empty in Hin].
    rewrite <- H. apply elem_of_union_l, elem_of_singleton. reflexivity.
  - vm_compute. lia.
  - split_and!; [exact Hsel | exact Hc | exact Hs].
Defined.

(** X13. Submitting on the last question: the button reads [Завершить],
    and once the answer request has resolved the selection is in the
    history, the cursor has not moved, [loading] is on and exactly one
    [POST /api/test/finish] for the session of that render has been sent;
    the test screen stays until that request is answered. *)
Theorem last_question_submit_finalizes (tg : option TgWebApp) (m : Machine)
    (q : Question) (d : Data) :
  screen (ui m) = scr_test →
  questions (ui m) !! currentQuestion (ui m) = Some q →
  selectedAnswers (ui m) ≠ ∅ →
  S (currentQuestion (ui m)) = length (questions (ui m)) →
  let m1 := step tg (Settle (length (inflight m)) (Body d))
              (step tg ClickSubmit m) in
  submitLabel (ui m) = "Завершить" ∧
  currentQuestion (ui m1) = currentQuestion (ui m) ∧
  selectedAnswers (ui m1) = selectedAnswers (ui m) ∧
  answersHistory (ui m1)
    = <[currentQuestion (ui m) := selectedAnswers (ui m)]> (answersHistory (ui m)) ∧
  screen (ui m1) = scr_test ∧
  loading (ui m1) = true ∧
  inflight m1 = inflight m ++ [AwaitFinish] ∧
  out m1 = out m
           ++ [Fetch (PostAnswer (telegram_id (userData (ui m))) (sessionId (ui m))
                        (q_id q) (selectedAnswers (ui m)));
               Fetch (PostFinish (telegram_id (userData (ui m))) (sessionId (ui m)))].
Proof.
  intros Hscr Hq Hsel Hlast m1. subst m1.
  rewrite (submit_settled tg m q d Hscr Hq Hsel).
  rewrite ui_timerEffect, inflight_timerEffect, out_timerEffect.
  unfold submitAnswer_settled. case_decide; [lia|]. simpl.
  split_and!; try reflexivity; auto.
  - unfold submitLabel. case_decide; [reflexivity | lia].
  - by rewrite <- app_assoc.
Qed.

Lemma last_question_submit_finalizes_witness :
  let m := run host (toTest [question 1] 10 ++ [ClickOption 0]) (mount host) in
  let m1 := step host (Settle (length (inflight m)) (Body DAck))
              (step host ClickSubmit m) in
  finishes m1 = 1 ∧ inflight m1 = inflight m ++ [AwaitFinish].
Proof.
  intros m m1. split; [vm_compute; reflexivity|].
  apply (last_question_submit_finalizes host m (question 1) DAck).
  - vm_compute. reflexivity.
  - vm_compute. reflexivity.
  - assert (selectedAnswers (ui m) = {[ 1 ]}) as -> by (vm_compute; reflexivity).
    apply non_empty_singleton_L.
  - vm_compute. reflexivity.
Defined.

(** ** The clock *)

Lemma string_length_app (s t : string) :
  String.length (s +:+ t) = String.length s + String.length t.
Proof. induction s as [|c s IH]; simpl; [reflexivity | by rewrite IH]. Qed.

Lemma string_app_inj_suffix (s1 s2 t1 t2 : string) :
  String.length t1 = String.length t2 →
  s1 +:+ t1 = s2 +:+ t2 → s1 = s2 ∧ t1 = t2.
Proof.
  intros Hlen. revert s2.
  induction s1 as [|c s1 IH]; intros [|c' s2] H; simpl in *.
  - by split.
  - exfalso. apply (f_equal String.length) in H.
    rewrite ?string_length_app in H. simpl in H.
    rewrite ?string_length_app in H. lia.
  - exfalso. apply (f_equal String.length) in H.
    rewrite ?string_length_app in H. simpl in H.
    rewrite ?string_length_app in H. lia.
  - injection H as -> H. destruct (IH s2 H) as [-> ->]. by split.
Qed.

Lemma seconds_field (r : Z) :
  (0 ≤ r < 60)%Z → two_digits (padStart 2 "0"%char (pretty r)) = Some r.
Proof.
  intros Hr. rewrite <- (Z2Nat.id r) by lia.
  assert (Z.to_nat r < 60) as Hn by lia.
  generalize dependent (Z.to_nat r). clear. intros n Hn.
  do 60 (destruct n as [|n]; [vm_compute; reflexivity|]). lia.
Qed.

Lemma two_digits_length s r : two_digits s = Some r → String.length s = 2.
Proof. destruct s as [|a [|b [|c s]]]; simpl; try discriminate. reflexivity. Qed.

Lemma formatTime_field (seconds : Z) :
  (0 ≤ seconds)%Z →
  ∃ field,
    formatTime seconds = pretty (seconds `div` 60)%Z +:+ ":" +:+ field ∧
    String.length field = 2 ∧
    two_digits field = Some (seconds `mod` 60)%Z.
Proof.
  intros Hs. exists (padStart 2 "0"%char (pretty (Z.rem seconds 60))).
  assert (Z.rem seconds 60 = seconds `mod` 60)%Z as Hrem
    by (apply Z.rem_mod_nonneg; lia).
  assert (two_digits (padStart 2 "0"%char (pretty (Z.rem seconds 60)))
          = Some (seconds `mod` 60)%Z) as Hfield.
  { rewrite Hrem. apply seconds_field. apply Z.mod_pos_bound. lia. }
  split_and!; [reflexivity | | exact Hfield].
  eapply two_digits_length, Hfield.
Qed.

(** X14. For a whole number of seconds that is not negative and at most
    [2^53] (where the code computes and prints exactly) [formatTime]
    gives the minutes in decimal, a colon, and a field of exactly two
    digits that reads as the seconds within the minute. *)
Theorem formatTime_shape (seconds : Z) :
  (0 ≤ seconds)%Z → safe_integer seconds →
  ∃ field,
    formatTime seconds = pretty (seconds `div` 60)%Z +:+ ":" +:+ field ∧
    String.length field = 2 ∧
    two_digits field = Some (seconds `mod` 60)%Z.
Proof. intros Hs _. by apply formatTime_field. Qed.

Lemma formatTime_shape_witness :
  ∃ field, formatTime 65 = pretty 1%Z +:+ ":" +:+ field ∧
           String.length field = 2 ∧ two_digits field = Some 5%Z.
Proof.
  apply (formatTime_shape 65); [lia|].
  unfold safe_integer; split; vm_compute; discriminate.
Defined.

(** X15. Two different whole numbers of seconds, not negative and at most
    [2^53], are never shown alike. *)
Theorem formatTime_injective (a b : Z) :
  (0 ≤ a)%Z → safe_integer a → (0 ≤ b)%Z → safe_integer b →
  formatTime a = formatTime b → a = b.
Proof.
  intros Ha _ Hb _ H.
  destruct (formatTime_field a Ha) as (fa & Hfa & Hla & Hda).
  destruct (formatTime_field b Hb) as (fb & Hfb & Hlb & Hdb).
  rewrite Hfa, Hfb in H.
  apply string_app_inj_suffix in H as [Hmin Hsec];
    [|by rewrite !string_length_app, Hla, Hlb].
  apply (inj pretty) in Hmin.
  apply (inj (String.append ":")) in Hsec. subst fb.
  rewrite Hdb in Hda. injection Hda as Hmod.
  rewrite (Z.div_mod a 60), (Z.div_mod b 60) by lia. lia.
Qed.

Lemma formatTime_injective_witness : (65 = 60 + 5)%Z.
Proof.
  apply (formatTime_injective 65 (60 + 5));
    [ lia | unfold safe_integer; split; vm_compute; discriminate
    | lia | unfold safe_integer; split; vm_compute; discriminate
    | reflexivity ].
Defined.

Lemma timeLeft_exact_step tg e m :
  budget_exact e →
  (0 ≤ timeLeft (ui m) ≤ 2 ^ 53)%Z →
  (0 ≤ timeLeft (ui (step tg e m)) ≤ 2 ^ 53)%Z.
Proof.
  intros He Hm. unfold step. rewrite ui_timerEffect. revert He.
  unfold budget_exact, safe_integer. handlers.
  destruct tg; repeat (case_match || case_decide); simpl; intros He;
    simplify_eq; simpl in *; lia.
Qed.

(** X16. When every budget given by the service is a whole number of
    minutes, not negative, with [time_minutes * 60] at most [2^53],
    [timeLeft] is never negative and never above [2^53]: the code counts
    it exactly, and the clock shown on the test screen always has the
    form [m:ss] and tells the remaining seconds apart. *)
Theorem timeLeft_never_negative (tg : option TgWebApp) (es : list Event) :
  Forall budget_exact es →
  let m := run tg es (mount tg) in
  (0 ≤ timeLeft (ui m))%Z ∧ safe_integer (timeLeft (ui m)) ∧
  ∃ field, formatTime (timeLeft (ui m))
           = pretty (timeLeft (ui m) `div` 60)%Z +:+ ":" +:+ field ∧
           two_digits field = Some (timeLeft (ui m) `mod` 60)%Z.
Proof.
  intros Hes m.
  assert (0 ≤ timeLeft (ui m) ≤ 2 ^ 53)%Z as Hnn.
  { subst m. induction es as [|e es IH] using rev_ind.
    - unfold mount. destruct tg as [[[uid|]]|]; simpl; lia.
    - apply Forall_app in Hes as [Hes He].
      rewrite run_snoc. apply timeLeft_exact_step; [|by apply IH].
      by inversion He. }
  split_and!; [lia | unfold safe_integer; lia |].
  destruct (formatTime_field (timeLeft (ui m))) as (field & Hf & _ & Hd); [lia|].
  exists field. by split.
Qed.

Lemma timeLeft_never_negative_witness :
  let m := run host (toTest [question 1] 1 ++ repeat Tick 15) (mount host) in
  (0 ≤ timeLeft (ui m))%Z.
Proof.
  intros m.
  apply (timeLeft_never_negative host (toTest [question 1] 1 ++ repeat Tick 15)).
  apply Forall_app. split.
  - repeat constructor; unfold safe_integer; simpl; lia.
  - apply Forall_forall. intros e He.
    apply list_elem_of_In, repeat_spec in He. by subst e.
Defined.
